(** * The price-movement scanner of [docs/databento.py]

    A shallow embedding of the class [PriceMovementScanner]: its constructor,
    the dictionary built by [get_last_day_lookup], and the feed callback
    [scan].  Python floats are IEEE binary64 numbers and are embedded as
    Rocq's primitive floats; Python dictionaries are finite maps; a raised
    exception is an explicit outcome that carries the scanner as the raising
    statement left it. *)

From Stdlib Require Import ZArith Floats Lia.
From stdpp Require Import gmap strings list.

Set Warnings "-inexact-float".
Local Open Scope Z_scope.

(** ** The fragment of the Python runtime the scanner relies on *)

Module Py.

(** The exceptions the statements of [scan] can raise.  A failed dictionary
    subscript raises [KeyError] with the missing key, which is an instrument
    id for [symbol_directory] and a ticker for the other two tables; pandas
    raises [OutOfBoundsDatetime] for an instant it cannot hold. *)
Inductive exn : Type :=
| KeyError_int (key : Z)
| KeyError_str (key : string)
| ZeroDivisionError
| OverflowError
| OutOfBoundsDatetime.

Inductive outcome (A : Type) : Type :=
| Return (a : A)
| Raise (e : exn).
Arguments Return {A} a.
Arguments Raise {A} e.

(** A number as the constructor can receive it for [pct_threshold]. *)
Inductive num : Type :=
| PyInt (z : Z)
| PyFloat (f : float).

(** [bool(x)] of a number: zero of either kind is falsy, also [-0.0];
    a NaN is truthy. *)
Definition truthy (x : num) : bool :=
  match x with
  | PyInt z => negb (z =? 0)
  | PyFloat f => negb (f =? 0)%float
  end.

(** [x or d] where [x] may be [None]. *)
Definition or_else (x : option num) (d : num) : num :=
  match x with
  | Some v => if truthy v then v else d
  | None => d
  end.

(** [float(z)]: the int is rounded to the nearest binary64 number, ties to
    even; an int beyond the range raises [OverflowError]. *)
Definition float_of_int (z : Z) : outcome float :=
  match binary_normalize prec emax z 0 false with
  | S754_infinity _ => Raise OverflowError
  | sf => Return (SF2Prim sf)
  end.

(** [x / y] on floats. *)
Definition truediv (x y : float) : outcome float :=
  if (y =? 0)%float then Raise ZeroDivisionError else Return (x / y)%float.

(** Exact order between a float and an int, as Python's mixed comparison
    computes it; [None] for a NaN. *)
Definition float_cmp_int (x : float) (z : Z) : option comparison :=
  match Prim2SF x with
  | S754_nan => None
  | S754_infinity s => Some (if s then Lt else Gt)
  | S754_zero _ => Some (0 ?= z)
  | S754_finite s m e =>
      let v := if s then Z.neg m else Z.pos m in
      Some (match e with
            | Z.neg k => v ?= z * 2 ^ Z.pos k
            | _ => v * 2 ^ e ?= z
            end)
  end.

(** [x > t] and [x == t] for a float [x] and a number [t]. *)
Definition float_gt (x : float) (t : num) : bool :=
  match t with
  | PyFloat f => (f <? x)%float
  | PyInt z => match float_cmp_int x z with Some Gt => true | _ => false end
  end.

Definition float_eq (x : float) (t : num) : bool :=
  match t with
  | PyFloat f => (x =? f)%float
  | PyInt z => match float_cmp_int x z with Some Eq => true | _ => false end
  end.

(** [d[k]] on a dictionary. *)
Definition getitem_int {V} (d : gmap Z V) (k : Z) : outcome V :=
  match d !! k with
  | Some v => Return v
  | None => Raise (KeyError_int k)
  end.

Definition getitem_str {V} (d : gmap string V) (k : string) : outcome V :=
  match d !! k with
  | Some v => Return v
  | None => Raise (KeyError_str k)
  end.

(** [pd.Timestamp(ts, unit='ns')], made aware of UTC and converted to
    US/Eastern (line 101).  pandas holds an instant as a signed 64-bit count
    of nanoseconds, and [ts] comes from an unsigned 64-bit field: a count of
    [2 ^ 63] or more, like the null time [2 ^ 64 - 1], raises.  The instant
    is returned as its count; its rendering as text is not modelled. *)
Definition Timestamp (ts : N) : outcome N :=
  if (ts <? 2 ^ 63)%N then Return ts else Raise OutOfBoundsDatetime.

End Py.
Export Py.

(** ** Feed records (the fields [scan] reads) *)

Record RecordHeader : Type := {
  instrument_id : Z;
  ts_event : N
}.

Record BidAskPair : Type := {
  bid_px : Z;
  ask_px : Z
}.

(** [MBP1Msg] carries exactly one book level, [levels[0]]. *)
Inductive Event : Type :=
| SymbolMappingMsg (hd : RecordHeader) (stype_out_symbol : string)
| MBP1Msg (hd : RecordHeader) (levels_0 : BidAskPair)
| OtherMsg.

(** The values that [scan] formats into the line it prints: the event time,
    the ticker, [abs_r], [mid] and [last].  The rendering of the time as
    text and the formatting of the numbers are not modelled. *)
Record Alert : Type := {
  alert_ts : N;
  alert_symbol : string;
  alert_abs_r : float;
  alert_mid : float;
  alert_last : float
}.

(** ** The class *)

Module PriceMovementScanner.

Definition PX_SCALE : float := 1e-9%float.
Definition PX_NULL : Z := 2 ^ 63 - 1.
Definition PCT_MOVE_THRESHOLD : float := 0.03%float.

(** The attributes of an instance that [scan] reads or writes.  [today] and
    [today_midnight_ns] are only used by code that is commented out. *)
Record Scanner : Type := {
  pct_threshold : num;
  symbol_directory : gmap Z string;
  last_day_lookup : gmap string float;
  is_signal_lit : gmap string bool
}.

(** The scanner together with what it has printed so far. *)
Record world : Type := {
  self : Scanner;
  stdout : list Alert
}.

(** Statements: they run in a world and return or raise. *)
Definition M (A : Type) : Type := world -> outcome A * world.

#[global] Instance M_ret : MRet M := fun A a w => (Return a, w).

#[global] Instance M_bind : MBind M := fun A B f m w =>
  match m w with
  | (Return a, w') => f a w'
  | (Raise e, w') => (Raise e, w')
  end.

Definition lift {A} (o : outcome A) : M A := fun w => (o, w).

Definition get_self : M Scanner := fun w => (Return (self w), w).

Definition print (a : Alert) : M unit := fun w =>
  (Return tt, {| self := self w; stdout := stdout w ++ [a] |}).

(** [self.symbol_directory[k] = v] *)
Definition set_symbol_directory (k : Z) (v : string) : M unit := fun w =>
  let s := self w in
  (Return tt,
   {| self := {| pct_threshold := pct_threshold s;
                 symbol_directory := <[k := v]> (symbol_directory s);
                 last_day_lookup := last_day_lookup s;
                 is_signal_lit := is_signal_lit s |};
      stdout := stdout w |}).

(** [self.is_signal_lit[k] = v] *)
Definition set_is_signal_lit (k : string) (v : bool) : M unit := fun w =>
  let s := self w in
  (Return tt,
   {| self := {| pct_threshold := pct_threshold s;
                 symbol_directory := symbol_directory s;
                 last_day_lookup := last_day_lookup s;
                 is_signal_lit := <[k := v]> (is_signal_lit s) |};
      stdout := stdout w |}).

(** [dict(zip(df["symbol"], df["close"]))]: the rows of the data frame are
    the input, a later row overwrites an earlier one for the same ticker. *)
Definition get_last_day_lookup (rows : list (string * float)) : gmap string float :=
  foldl (fun d row => <[row.1 := row.2]> d) ∅ rows.

(** [__init__]; the rows are what the historical request returned. *)
Definition init (pct_threshold : option num) (rows : list (string * float)) : Scanner :=
  let last_day_lookup := get_last_day_lookup rows in
  {| pct_threshold := or_else pct_threshold (PyFloat PCT_MOVE_THRESHOLD);
     symbol_directory := ∅;
     last_day_lookup := last_day_lookup;
     is_signal_lit := (fun _ => false) <$> last_day_lookup |}.

(** Line 96: [(bid + ask) * PX_SCALE * 0.5]. *)
Definition mid_price (bid ask : Z) : outcome float :=
  match float_of_int (bid + ask) with
  | Return x => Return (x * PX_SCALE * 0.5)%float
  | Raise e => Raise e
  end.

(** Line 98: [abs(mid - last) / last]. *)
Definition abs_r_of (mid last : float) : outcome float :=
  truediv (abs (mid - last)) last.

Definition scan (event : Event) : M unit :=
  match event with
  | SymbolMappingMsg hd stype_out_symbol =>
      set_symbol_directory (instrument_id hd) stype_out_symbol
  | OtherMsg => mret tt
  | MBP1Msg hd levels_0 =>
      me ← get_self;
      symbol ← lift (getitem_int (symbol_directory me) (instrument_id hd));
      let bid := bid_px levels_0 in
      let ask := ask_px levels_0 in
      if (bid =? PX_NULL) || (ask =? PX_NULL) then mret tt else
      mid ← lift (mid_price (bid_px levels_0) (ask_px levels_0));
      last ← lift (getitem_str (last_day_lookup me) symbol);
      abs_r ← lift (abs_r_of mid last);
      if float_gt abs_r (pct_threshold me) then
        lit ← lift (getitem_str (is_signal_lit me) symbol);
        if negb lit then
          ts ← lift (Timestamp (ts_event hd));
          print {| alert_ts := ts; alert_symbol := symbol;
                   alert_abs_r := abs_r; alert_mid := mid; alert_last := last |};;
          set_is_signal_lit symbol true
        else mret tt
      else mret tt
  end.

(** The live client calls [scan] on each record of the feed in order.  The
    client itself is not part of the file: [halt] tells whether an
    exception escaping the callback ends the session or the session goes on
    with the next record. *)
Fixpoint feed (halt : bool) (events : list Event) (w : world) : world :=
  match events with
  | [] => w
  | event :: rest =>
      match scan event w with
      | (Return _, w') => feed halt rest w'
      | (Raise _, w') => if halt then w' else feed halt rest w'
      end
  end.

(** A scanner that has printed nothing yet. *)
Definition boot (s : Scanner) : world := {| self := s; stdout := [] |}.

End PriceMovementScanner.
Export PriceMovementScanner.

(** ** Vocabulary of the statements *)

(** The world after an alert for [s]: the line is printed, then the signal
    of [s] is lit. *)
Definition alerted (w : world) (a : Alert) : world :=
  {| self := {| pct_threshold := pct_threshold (self w);
                symbol_directory := symbol_directory (self w);
                last_day_lookup := last_day_lookup (self w);
                is_signal_lit := <[alert_symbol a := true]> (is_signal_lit (self w)) |};
     stdout := stdout w ++ [a] |}.

(** One side of the top of the book is the null price (line 92). *)
Definition null_side (lv : BidAskPair) : bool :=
  (bid_px lv =? PX_NULL) || (ask_px lv =? PX_NULL).

(** The range of the price fields of a record, which are signed 64-bit. *)
Definition int64 (z : Z) : Prop := - 2 ^ 63 <= z < 2 ^ 63.

(** The alerts printed so far for a ticker. *)
Definition alerts_for (s : string) (w : world) : list Alert :=
  filter (fun a => alert_symbol a = s) (stdout w).

(** [event] is a quote for the ticker [s] with both sides present whose
    relative move, computed against the reference of [s], is above the
    threshold of the scanner. *)
Definition exceeds (sc : Scanner) (s : string) (event : Event) : Prop :=
  exists hd lv mid last r,
    event = MBP1Msg hd lv /\
    symbol_directory sc !! instrument_id hd = Some s /\
    null_side lv = false /\
    mid_price (bid_px lv) (ask_px lv) = Return mid /\
    last_day_lookup sc !! s = Some last /\
    abs_r_of mid last = Return r /\
    float_gt r (pct_threshold sc) = true.

(** The time of a quote is one line 101 can convert. *)
Definition dated (event : Event) : Prop :=
  match event with
  | MBP1Msg hd _ => (ts_event hd <? 2 ^ 63)%N = true
  | _ => True
  end.

(** No exception has ended the session while [events] were handled. *)
Fixpoint survives (halt : bool) (events : list Event) (w : world) : Prop :=
  match events with
  | [] => True
  | event :: rest =>
      match scan event w with
      | (Return _, w') => survives halt rest w'
      | (Raise _, w') => halt = false /\ survives halt rest w'
      end
  end.

(** A binary64 number that is not above zero, or is not a number. *)
Definition nonpos (x : spec_float) : Prop :=
  match x with
  | S754_nan | S754_zero _ => True
  | S754_infinity s | S754_finite s _ _ => s = true
  end.

(** A binary64 number below zero. *)
Definition negative (x : spec_float) : Prop :=
  match x with
  | S754_infinity s | S754_finite s _ _ => s = true
  | _ => False
  end.

(** The scenarios: one instrument, mapped to a ticker by [mapping] and
    quoted at 97.95 / 98.43 by [quote]. *)
Definition header : RecordHeader := {| instrument_id := 1; ts_event := 1745395201688717194%N |}.
Definition book : BidAskPair := {| bid_px := 97950000000; ask_px := 98430000000 |}.
Definition quote : Event := MBP1Msg header book.
Definition mapping (symbol : string) : Event := SymbolMappingMsg header symbol.
Definition nvda : Scanner := init (Some (PyFloat 0.03)) [("NVDA"%string, 102.71%float)].
Definition zzzz : Scanner := init None [("ZZZZ"%string, 0%float)].

(** The scanner of the NVDA scenario after a mapping of instrument 1 to a
    ticker that is not in the table. *)
Definition nvda_tsla : world := (scan (mapping "TSLA") (boot nvda)).2.

(** The scanners of the two scenarios once the instrument is mapped to the
    ticker of their table. *)
Definition nvda_mapped : world := (scan (mapping "NVDA") (boot nvda)).2.
Definition zzzz_mapped : world := (scan (mapping "ZZZZ") (boot zzzz)).2.

(** A scanner with a negative reference price and a negative threshold,
    and one whose threshold is the relative move of [quote] itself. *)
Definition negative_both : world :=
  (scan (mapping "ZZZZ")
     (boot (init (Some (PyFloat (-3))) [("ZZZZ"%string, (-100)%float)]))).2.
Definition negative_reference : world :=
  (scan (mapping "ZZZZ") (boot (init None [("ZZZZ"%string, (-100)%float)]))).2.
Definition nvda_at_threshold : world :=
  (scan (mapping "NVDA")
     (boot (init (Some (PyFloat 0.044007399474247706))
              [("NVDA"%string, 102.71%float)]))).2.

(** The quote of the scenarios with the null time of the feed in place of
    its time. *)
Definition late_header : RecordHeader := {| instrument_id := 1; ts_event := 2 ^ 64 - 1 |}.
Definition late_quote : Event := MBP1Msg late_header book.

(** A table of two tickers, and a second instrument with its quote. *)
Definition two_rows : list (string * float) :=
  [("NVDA"%string, 102.71%float); ("AAPL"%string, 90%float)].
Definition header2 : RecordHeader := {| instrument_id := 2; ts_event := 1745395202121450448%N |}.
Definition quote2 : Event := MBP1Msg header2 book.
Definition mapping2 (symbol : string) : Event := SymbolMappingMsg header2 symbol.

(** The alert of the NVDA scenario. *)
Definition nvda_alert : Alert :=
  {| alert_ts := ts_event header; alert_symbol := "NVDA";
     alert_abs_r := 0.044007399474247706; alert_mid := 98.190000000000012;
     alert_last := 102.71 |}.

(** ** The paths through [scan]

    One constructor for each way a call of [scan] can end: the event, how
    the call ends, and the world it leaves. *)

(** The world after [self.symbol_directory[k] = v]. *)
Definition mapped (w : world) (k : Z) (v : string) : world :=
  {| self := {| pct_threshold := pct_threshold (self w);
                symbol_directory := <[k := v]> (symbol_directory (self w));
                last_day_lookup := last_day_lookup (self w);
                is_signal_lit := is_signal_lit (self w) |};
     stdout := stdout w |}.

Inductive path (w : world) : Event -> outcome unit -> world -> Prop :=
| path_mapping hd symbol :
    path w (SymbolMappingMsg hd symbol) (Return tt) (mapped w (instrument_id hd) symbol)
| path_other :
    path w OtherMsg (Return tt) w
| path_unmapped hd lv :
    symbol_directory (self w) !! instrument_id hd = None ->
    path w (MBP1Msg hd lv) (Raise (KeyError_int (instrument_id hd))) w
| path_null hd lv s :
    symbol_directory (self w) !! instrument_id hd = Some s ->
    null_side lv = true ->
    path w (MBP1Msg hd lv) (Return tt) w
| path_overflow hd lv s :
    symbol_directory (self w) !! instrument_id hd = Some s ->
    null_side lv = false ->
    mid_price (bid_px lv) (ask_px lv) = Raise OverflowError ->
    path w (MBP1Msg hd lv) (Raise OverflowError) w
| path_unknown hd lv s mid :
    symbol_directory (self w) !! instrument_id hd = Some s ->
    null_side lv = false ->
    mid_price (bid_px lv) (ask_px lv) = Return mid ->
    last_day_lookup (self w) !! s = None ->
    path w (MBP1Msg hd lv) (Raise (KeyError_str s)) w
| path_zero hd lv s mid last :
    symbol_directory (self w) !! instrument_id hd = Some s ->
    null_side lv = false ->
    mid_price (bid_px lv) (ask_px lv) = Return mid ->
    last_day_lookup (self w) !! s = Some last ->
    (last =? 0)%float = true ->
    path w (MBP1Msg hd lv) (Raise ZeroDivisionError) w
| path_below hd lv s mid last r :
    symbol_directory (self w) !! instrument_id hd = Some s ->
    null_side lv = false ->
    mid_price (bid_px lv) (ask_px lv) = Return mid ->
    last_day_lookup (self w) !! s = Some last ->
    abs_r_of mid last = Return r ->
    float_gt r (pct_threshold (self w)) = false ->
    path w (MBP1Msg hd lv) (Return tt) w
| path_untracked hd lv s mid last r :
    symbol_directory (self w) !! instrument_id hd = Some s ->
    null_side lv = false ->
    mid_price (bid_px lv) (ask_px lv) = Return mid ->
    last_day_lookup (self w) !! s = Some last ->
    abs_r_of mid last = Return r ->
    float_gt r (pct_threshold (self w)) = true ->
    is_signal_lit (self w) !! s = None ->
    path w (MBP1Msg hd lv) (Raise (KeyError_str s)) w
| path_fired hd lv s mid last r :
    symbol_directory (self w) !! instrument_id hd = Some s ->
    null_side lv = false ->
    mid_price (bid_px lv) (ask_px lv) = Return mid ->
    last_day_lookup (self w) !! s = Some last ->
    abs_r_of mid last = Return r ->
    float_gt r (pct_threshold (self w)) = true ->
    is_signal_lit (self w) !! s = Some true ->
    path w (MBP1Msg hd lv) (Return tt) w
| path_armed hd lv s mid last r :
    symbol_directory (self w) !! instrument_id hd = Some s ->
    null_side lv = false ->
    mid_price (bid_px lv) (ask_px lv) = Return mid ->
    last_day_lookup (self w) !! s = Some last ->
    abs_r_of mid last = Return r ->
    float_gt r (pct_threshold (self w)) = true ->
    is_signal_lit (self w) !! s = Some false ->
    (ts_event hd <? 2 ^ 63)%N = true ->
    path w (MBP1Msg hd lv) (Return tt)
      (alerted w {| alert_ts := ts_event hd; alert_symbol := s; alert_abs_r := r;
                    alert_mid := mid; alert_last := last |})
| path_undated hd lv s mid last r :
    symbol_directory (self w) !! instrument_id hd = Some s ->
    null_side lv = false ->
    mid_price (bid_px lv) (ask_px lv) = Return mid ->
    last_day_lookup (self w) !! s = Some last ->
    abs_r_of mid last = Return r ->
    float_gt r (pct_threshold (self w)) = true ->
    is_signal_lit (self w) !! s = Some false ->
    (ts_event hd <? 2 ^ 63)%N = false ->
    path w (MBP1Msg hd lv) (Raise OutOfBoundsDatetime) w.

(** A session: the scanner is constructed, then fed the events. *)
Definition session (halt : bool) (pct_threshold : option num)
    (rows : list (string * float)) (events : list Event) : world :=
  feed halt events (boot (init pct_threshold rows)).

(** What a printed alert says about the scanner that printed it: the ticker
    is in the table with the reference the alert shows, the relative move
    is the one of line 98 for the mid and the reference shown, and it is
    above the threshold. *)
Definition justified (sc : Scanner) (a : Alert) : Prop :=
  last_day_lookup sc !! alert_symbol a = Some (alert_last a) /\
  abs_r_of (alert_mid a) (alert_last a) = Return (alert_abs_r a) /\
  float_gt (alert_abs_r a) (pct_threshold sc) = true.

(** Every ticker of the table has a signal and no other ticker has one. *)
Definition tracked (sc : Scanner) : Prop :=
  dom (is_signal_lit sc) = dom (last_day_lookup sc).

(** The lit signals are the tickers of the alerts printed so far. *)
Definition lit_as_printed (w : world) : Prop :=
  forall s, is_signal_lit (self w) !! s = Some true <->
            s ∈ alert_symbol <$> stdout w.

(** A scanner whose table holds the mid price of [quote] for NVDA, and one
    whose table holds no number for it. *)
Definition nvda_flat : world :=
  (scan (mapping "NVDA")
     (boot (init None [("NVDA"%string, 98.190000000000012%float)]))).2.
Definition nvda_nan : world :=
  (scan (mapping "NVDA") (boot (init None [("NVDA"%string, nan)]))).2.

(** ** Running a statement *)

Ltac run_scan :=
  unfold scan, mbind, M_bind, mret, M_ret, lift, get_self, print,
    set_is_signal_lit, set_symbol_directory, getitem_int, getitem_str;
  simpl.

(** The quote path of [scan], statement by statement. *)

Lemma scan_quote_unmapped w hd lv :
  symbol_directory (self w) !! instrument_id hd = None ->
  scan (MBP1Msg hd lv) w = (Raise (KeyError_int (instrument_id hd)), w).
Proof. intros Hd. run_scan. rewrite Hd. reflexivity. Qed.

Lemma scan_quote_null w hd lv s :
  symbol_directory (self w) !! instrument_id hd = Some s ->
  null_side lv = true ->
  scan (MBP1Msg hd lv) w = (Return tt, w).
Proof. intros Hd Hn. unfold null_side in Hn. run_scan. rewrite Hd, Hn. reflexivity. Qed.

Lemma scan_quote_overflow w hd lv s e :
  symbol_directory (self w) !! instrument_id hd = Some s ->
  null_side lv = false ->
  mid_price (bid_px lv) (ask_px lv) = Raise e ->
  scan (MBP1Msg hd lv) w = (Raise e, w).
Proof. intros Hd Hn Hm. unfold null_side in Hn. run_scan. rewrite Hd, Hn, Hm. reflexivity. Qed.

Lemma scan_quote_unknown w hd lv s mid :
  symbol_directory (self w) !! instrument_id hd = Some s ->
  null_side lv = false ->
  mid_price (bid_px lv) (ask_px lv) = Return mid ->
  last_day_lookup (self w) !! s = None ->
  scan (MBP1Msg hd lv) w = (Raise (KeyError_str s), w).
Proof. intros Hd Hn Hm Hl. unfold null_side in Hn. run_scan. rewrite Hd, Hn, Hm, Hl. reflexivity. Qed.

Lemma scan_quote_div w hd lv s mid last e :
  symbol_directory (self w) !! instrument_id hd = Some s ->
  null_side lv = false ->
  mid_price (bid_px lv) (ask_px lv) = Return mid ->
  last_day_lookup (self w) !! s = Some last ->
  abs_r_of mid last = Raise e ->
  scan (MBP1Msg hd lv) w = (Raise e, w).
Proof. intros Hd Hn Hm Hl Hr. unfold null_side in Hn. run_scan. rewrite Hd, Hn, Hm, Hl, Hr. reflexivity. Qed.

Lemma scan_quote_below w hd lv s mid last r :
  symbol_directory (self w) !! instrument_id hd = Some s ->
  null_side lv = false ->
  mid_price (bid_px lv) (ask_px lv) = Return mid ->
  last_day_lookup (self w) !! s = Some last ->
  abs_r_of mid last = Return r ->
  float_gt r (pct_threshold (self w)) = false ->
  scan (MBP1Msg hd lv) w = (Return tt, w).
Proof. intros Hd Hn Hm Hl Hr Hg. unfold null_side in Hn. run_scan. rewrite Hd, Hn, Hm, Hl, Hr, Hg. reflexivity. Qed.

Lemma scan_quote_untracked w hd lv s mid last r :
  symbol_directory (self w) !! instrument_id hd = Some s ->
  null_side lv = false ->
  mid_price (bid_px lv) (ask_px lv) = Return mid ->
  last_day_lookup (self w) !! s = Some last ->
  abs_r_of mid last = Return r ->
  float_gt r (pct_threshold (self w)) = true ->
  is_signal_lit (self w) !! s = None ->
  scan (MBP1Msg hd lv) w = (Raise (KeyError_str s), w).
Proof. intros Hd Hn Hm Hl Hr Hg Hs. unfold null_side in Hn. run_scan. rewrite Hd, Hn, Hm, Hl, Hr, Hg, Hs. reflexivity. Qed.

Lemma scan_quote_fired w hd lv s mid last r :
  symbol_directory (self w) !! instrument_id hd = Some s ->
  null_side lv = false ->
  mid_price (bid_px lv) (ask_px lv) = Return mid ->
  last_day_lookup (self w) !! s = Some last ->
  abs_r_of mid last = Return r ->
  float_gt r (pct_threshold (self w)) = true ->
  is_signal_lit (self w) !! s = Some true ->
  scan (MBP1Msg hd lv) w = (Return tt, w).
Proof. intros Hd Hn Hm Hl Hr Hg Hs. unfold null_side in Hn. run_scan. rewrite Hd, Hn, Hm, Hl, Hr, Hg, Hs. reflexivity. Qed.

Lemma scan_quote_armed w hd lv s mid last r :
  symbol_directory (self w) !! instrument_id hd = Some s ->
  null_side lv = false ->
  mid_price (bid_px lv) (ask_px lv) = Return mid ->
  last_day_lookup (self w) !! s = Some last ->
  abs_r_of mid last = Return r ->
  float_gt r (pct_threshold (self w)) = true ->
  is_signal_lit (self w) !! s = Some false ->
  (ts_event hd <? 2 ^ 63)%N = true ->
  scan (MBP1Msg hd lv) w =
    (Return tt,
     alerted w {| alert_ts := ts_event hd; alert_symbol := s; alert_abs_r := r;
                  alert_mid := mid; alert_last := last |}).
Proof.
  intros Hd Hn Hm Hl Hr Hg Hs Ht. unfold null_side in Hn. run_scan.
  rewrite Hd, Hn, Hm, Hl, Hr, Hg, Hs. unfold Timestamp. rewrite Ht. reflexivity.
Qed.

Lemma scan_quote_undated w hd lv s mid last r :
  symbol_directory (self w) !! instrument_id hd = Some s ->
  null_side lv = false ->
  mid_price (bid_px lv) (ask_px lv) = Return mid ->
  last_day_lookup (self w) !! s = Some last ->
  abs_r_of mid last = Return r ->
  float_gt r (pct_threshold (self w)) = true ->
  is_signal_lit (self w) !! s = Some false ->
  (ts_event hd <? 2 ^ 63)%N = false ->
  scan (MBP1Msg hd lv) w = (Raise OutOfBoundsDatetime, w).
Proof.
  intros Hd Hn Hm Hl Hr Hg Hs Ht. unfold null_side in Hn. run_scan.
  rewrite Hd, Hn, Hm, Hl, Hr, Hg, Hs. unfold Timestamp. rewrite Ht. reflexivity.
Qed.

(** ** Order of binary64 numbers *)

Section Binary64.

Lemma Prim2SF_zero : Prim2SF 0%float = S754_zero false.
Proof. reflexivity. Qed.

Lemma SFcompare_Eq_sym x y : SFcompare x y = Some Eq -> SFcompare y x = Some Eq.
Proof.
  destruct x as [sx|sx| |sx mx ex], y as [sy|sy| |sy my ey]; simpl;
    try discriminate; try reflexivity;
    try (destruct sx; discriminate); try (destruct sy; discriminate).
  - destruct sx, sy; intros H; try discriminate; reflexivity.
  - change (Pos.compare_cont Eq mx my) with (mx ?= my)%positive.
    change (Pos.compare_cont Eq my mx) with (my ?= mx)%positive.
    destruct sx, sy; try discriminate;
      destruct (ex ?= ey) eqn:He; try discriminate;
      apply Z.compare_eq in He; subst ey; rewrite Z.compare_refl;
      destruct (mx ?= my)%positive eqn:Hm; try discriminate;
      apply Pos.compare_eq in Hm; subst my; rewrite Pos.compare_refl; reflexivity.
Qed.

(** Rounding keeps the sign it is given. *)
Lemma binary_round_aux_sign s m e l :
  match binary_round_aux prec emax s m e l with
  | S754_nan => True
  | S754_zero s' | S754_infinity s' | S754_finite s' _ _ => s' = s
  end.
Proof.
  unfold binary_round_aux.
  destruct (shr_fexp prec emax m e l) as [mrs' e'].
  destruct (shr_fexp prec emax _ e' loc_Exact) as [mrs'' e''].
  destruct (shr_m mrs''); [reflexivity | | exact I].
  destruct (e'' <=? emax - prec); reflexivity.
Qed.

Lemma SFdiv_abs_negative x y : negative y -> nonpos (SFdiv prec emax (SFabs x) y).
Proof.
  destruct y as [sy|sy| |sy my ey]; try contradiction; intros ->;
    destruct x as [sx|sx| |sx mx ex]; simpl; try exact I; try reflexivity.
  destruct (SFdiv_core_binary prec emax (Z.pos mx) ex (Z.pos my) ey) as [[mz ez] lz].
  pose proof (binary_round_aux_sign true mz ez lz) as H.
  destruct (binary_round_aux prec emax true mz ez lz); simpl; auto.
Qed.

Lemma SFltb_nonpos t r :
  nonpos r -> SFltb t r = true -> SFltb t (S754_zero false) = true.
Proof.
  unfold SFltb.
  destruct t as [st|st| |st mt et], r as [sr|sr| |sr mr er]; simpl;
    try discriminate; try (intros _; discriminate); try (intros ->; discriminate);
    try (intros _; destruct st; discriminate);
    try (intros ->; destruct st; simpl; congruence);
    auto.
Qed.

Lemma negative_of_leb (x : float) :
  (x <=? 0)%float = true -> (x =? 0)%float = false -> negative (Prim2SF x).
Proof.
  rewrite FloatAxioms.leb_spec, FloatAxioms.eqb_spec, Prim2SF_zero. unfold SFleb, SFeqb.
  destruct (Prim2SF x) as [s|s| |s m e]; simpl; try discriminate;
    destruct s; try discriminate; auto.
Qed.

(** [abs(x) / y] is not above zero when [y] is below zero. *)
Lemma abs_div_nonpos (x y : float) :
  (y <=? 0)%float = true -> (y =? 0)%float = false ->
  nonpos (Prim2SF (abs x / y)).
Proof.
  intros Hle Hne. rewrite FloatAxioms.div_spec, FloatAxioms.abs_spec.
  apply SFdiv_abs_negative, negative_of_leb; assumption.
Qed.

Lemma float_cmp_int_nonpos r z :
  nonpos (Prim2SF r) -> 0 <= z -> float_cmp_int r z <> Some Gt.
Proof.
  unfold float_cmp_int.
  destruct (Prim2SF r) as [s|s| |s m e]; cbn [nonpos].
  - intros _ Hz H. apply (inj Some) in H. apply Z.compare_gt_iff in H. lia.
  - intros -> _. discriminate.
  - discriminate.
  - intros -> Hz H. apply (inj Some) in H.
    destruct e as [|k|k]; apply Z.compare_gt_iff in H.
    + lia.
    + assert (0 < 2 ^ Z.pos k) by (apply Z.pow_pos_nonneg; lia). nia.
    + assert (0 < 2 ^ Z.pos k) by (apply Z.pow_pos_nonneg; lia). nia.
Qed.

(** A number that is not above zero is not above a threshold that is not
    below zero. *)
Lemma gt_nonpos r t :
  nonpos (Prim2SF r) -> float_gt 0 t = false -> float_gt r t = false.
Proof.
  intros Hr. destruct t as [z|f]; unfold float_gt.
  - unfold float_cmp_int at 1. rewrite Prim2SF_zero. intros H0.
    assert (Hz : 0 <= z).
    { destruct (Z.compare_spec 0 z) as [Hc|Hc|Hc]; try discriminate; lia. }
    pose proof (float_cmp_int_nonpos r z Hr Hz) as Hn.
    destruct (float_cmp_int r z) as [[]|]; congruence.
  - rewrite !FloatAxioms.ltb_spec, Prim2SF_zero. intros H0.
    destruct (SFltb (Prim2SF f) (Prim2SF r)) eqn:Hlt; [|reflexivity].
    rewrite (SFltb_nonpos _ _ Hr Hlt) in H0. discriminate.
Qed.

(** The comparison of line 100 is strict. *)
Lemma gt_strict r t : float_eq r t = true -> float_gt r t = false.
Proof.
  destruct t as [z|f]; unfold float_eq, float_gt.
  - destruct (float_cmp_int r z) as [[]|]; congruence.
  - rewrite FloatAxioms.eqb_spec, FloatAxioms.ltb_spec. unfold SFeqb, SFltb.
    destruct (SFcompare (Prim2SF r) (Prim2SF f)) as [[]|] eqn:Hc; try discriminate.
    rewrite (SFcompare_Eq_sym _ _ Hc). reflexivity.
Qed.

(** *** Conversion of a 64-bit sum to a float

    The mantissa of the sum of two 64-bit prices has at most 65 binary
    digits, so rounding it to 53 digits ends far below the largest
    exponent. *)

Lemma digits2_pos_succ p : Z.pos (digits2_pos (Pos.succ p)) <= Z.pos (digits2_pos p) + 1.
Proof. induction p as [p IH | p IH |]; simpl; lia. Qed.

Lemma Zdigits2_succ m : 0 <= m -> Zdigits2 (m + 1) <= Zdigits2 m + 1.
Proof.
  destruct m as [| p | p]; intros Hm; simpl; try lia.
  rewrite Pos.add_1_r. apply digits2_pos_succ.
Qed.

Lemma Zdigits2_nonneg m : 0 <= Zdigits2 m.
Proof. destruct m; simpl; lia. Qed.

Lemma digits2_pos_bound p n : 0 <= n -> Z.pos p < 2 ^ n -> Z.pos (digits2_pos p) <= n.
Proof.
  revert n. induction p as [p IH | p IH |]; intros n Hn Hp; simpl digits2_pos.
  - assert (n = Z.succ (Z.pred n)) as Hs by lia.
    assert (0 <= Z.pred n). { destruct (Z.eq_dec n 0); [subst; simpl in Hp; lia | lia]. }
    rewrite Hs, Z.pow_succ_r in Hp by assumption.
    specialize (IH (Z.pred n)). lia.
  - assert (n = Z.succ (Z.pred n)) as Hs by lia.
    assert (0 <= Z.pred n). { destruct (Z.eq_dec n 0); [subst; simpl in Hp; lia | lia]. }
    rewrite Hs, Z.pow_succ_r in Hp by assumption.
    specialize (IH (Z.pred n)). lia.
  - destruct (Z.eq_dec n 0); [subst; simpl in Hp; lia | lia].
Qed.

Lemma digits2_pos_iter_xO p d :
  Z.pos (digits2_pos (Pos.iter xO p d)) = Z.pos (digits2_pos p) + Z.pos d.
Proof.
  induction d as [| d IH] using Pos.peano_ind.
  - simpl. lia.
  - rewrite Pos.iter_succ. simpl digits2_pos. lia.
Qed.

Lemma shr_1_digits r :
  0 <= shr_m r -> 0 <= shr_m (shr_1 r) /\ Zdigits2 (shr_m (shr_1 r)) <= Zdigits2 (shr_m r).
Proof.
  destruct r as [m r s]. simpl. destruct m as [| [p | p |] | [p | p |]]; simpl; lia.
Qed.

Lemma iter_shr_1_digits p r :
  0 <= shr_m r ->
  0 <= shr_m (SpecFloat.iter_pos shr_1 p r) /\
  Zdigits2 (shr_m (SpecFloat.iter_pos shr_1 p r)) <= Zdigits2 (shr_m r).
Proof.
  revert r. induction p as [p IH | p IH |]; intros r Hr; simpl.
  - destruct (shr_1_digits r Hr) as [H1 H2].
    destruct (IH _ H1) as [H3 H4]. destruct (IH _ H3) as [H5 H6]. lia.
  - destruct (IH _ Hr) as [H3 H4]. destruct (IH _ H3) as [H5 H6]. lia.
  - apply shr_1_digits, Hr.
Qed.

Lemma shr_record_of_loc_m m l : shr_m (shr_record_of_loc m l) = m.
Proof. destruct l as [| []]; reflexivity. Qed.

Lemma shr_fexp_bound m e l :
  0 <= m ->
  let r := shr_fexp prec emax m e l in
  0 <= shr_m r.1 /\ Zdigits2 (shr_m r.1) <= Zdigits2 m /\
  r.2 = Z.max e (fexp prec emax (Zdigits2 m + e)).
Proof.
  intros Hm. unfold shr_fexp, shr.
  pose proof (shr_record_of_loc_m m l) as Hrec.
  destruct (fexp prec emax (Zdigits2 m + e) - e) as [| n | n] eqn:Hn; simpl.
  - rewrite Hrec. lia.
  - destruct (iter_shr_1_digits n (shr_record_of_loc m l)) as [H1 H2]; [rewrite Hrec; lia |].
    rewrite Hrec in H2. lia.
  - rewrite Hrec. lia.
Qed.

Lemma round_nearest_even_bound m l :
  0 <= m -> 0 <= round_nearest_even m l /\ Zdigits2 (round_nearest_even m l) <= Zdigits2 m + 1.
Proof.
  intros Hm. pose proof (Zdigits2_succ m Hm). 
  destruct l as [| []]; simpl; try lia. destruct (Z.even m); lia.
Qed.

Lemma binary_round_aux_finite s m e l :
  0 <= m -> Zdigits2 m <= 65 -> e <= 0 ->
  forall s', binary_round_aux prec emax s m e l <> S754_infinity s'.
Proof.
  intros Hm Hd He s'. unfold binary_round_aux.
  pose proof (shr_fexp_bound m e l Hm) as H1. cbv zeta in H1.
  destruct (shr_fexp prec emax m e l) as [mrs' e']. simpl in H1.
  destruct H1 as (H1a & H1b & H1c).
  pose proof (round_nearest_even_bound (shr_m mrs') (loc_of_shr_record mrs') H1a) as [H2a H2b].
  pose proof (shr_fexp_bound _ e' loc_Exact H2a) as H3. cbv zeta in H3.
  destruct (shr_fexp prec emax _ e' loc_Exact) as [mrs'' e'']. simpl in H3.
  destruct H3 as (H3a & H3b & H3c).
  destruct (shr_m mrs''); try discriminate.
  destruct (e'' <=? emax - prec) eqn:Hle; try discriminate.
  apply Z.leb_gt in Hle. exfalso.
  pose proof (Zdigits2_nonneg m).
  unfold fexp, SpecFloat.emin, emax, prec in *. lia.
Qed.

Lemma binary_round_finite s p :
  Z.pos (digits2_pos p) <= 65 ->
  forall s', binary_round prec emax s p 0 <> S754_infinity s'.
Proof.
  intros Hd s'. unfold binary_round, shl_align.
  destruct (fexp prec emax (Z.pos (digits2_pos p) + 0) - 0) as [| d | d] eqn:Hx.
  - apply binary_round_aux_finite; simpl; lia.
  - apply binary_round_aux_finite; simpl; lia.
  - unfold fexp, SpecFloat.emin, emax, prec in Hx.
    apply binary_round_aux_finite;
      [lia | simpl; rewrite digits2_pos_iter_xO; lia | unfold fexp, SpecFloat.emin, emax, prec; lia].
Qed.

Lemma binary_normalize_finite z :
  - 2 ^ 64 <= z <= 2 ^ 64 ->
  forall s', binary_normalize prec emax z 0 false <> S754_infinity s'.
Proof.
  intros Hz s'. destruct z as [| p | p]; simpl; try discriminate.
  - apply binary_round_finite. apply digits2_pos_bound; lia.
  - apply binary_round_finite. apply digits2_pos_bound; lia.
Qed.

Lemma float_of_int_returns z :
  - 2 ^ 64 <= z <= 2 ^ 64 -> exists x, float_of_int z = Return x.
Proof.
  intros Hz. unfold float_of_int.
  pose proof (binary_normalize_finite z Hz) as Hfin.
  destruct (binary_normalize prec emax z 0 false) as [s | s | | s m e]; eauto.
  exfalso. apply (Hfin s). reflexivity.
Qed.

(** Line 96 raises nothing on the prices a record can hold. *)
Lemma mid_price_int64 bid ask :
  int64 bid -> int64 ask -> exists mid, mid_price bid ask = Return mid.
Proof.
  unfold int64. intros Hb Ha. unfold mid_price.
  destruct (float_of_int_returns (bid + ask)) as [x ->]; [lia | eauto].
Qed.

End Binary64.

(** ** Quotes that cannot be evaluated *)

(** C1 (as the code has it): a quote whose instrument id has no entry in
    [symbol_directory] prints no alert and leaves the scanner as it was, but
    the call does not return: the subscript of line 88 raises [KeyError]
    with the instrument id. *)
Theorem unmapped_quote_raises_KeyError (w : world) (hd : RecordHeader) (lv : BidAskPair) :
  symbol_directory (self w) !! instrument_id hd = None ->
  scan (MBP1Msg hd lv) w = (Raise (KeyError_int (instrument_id hd)), w).
Proof. apply scan_quote_unmapped. Qed.

Lemma unmapped_quote_raises_KeyError_witness :
  symbol_directory (self (boot nvda)) !! instrument_id header = None /\
  scan quote (boot nvda) = (Raise (KeyError_int 1), boot nvda).
Proof.
  split; [reflexivity |].
  apply (unmapped_quote_raises_KeyError (boot nvda) header book). reflexivity.
Defined.

(** C1 as stated fails: with no mapping handled, the quote is not dropped
    silently, the call raises. *)
Lemma unmapped_quote_not_silent :
  symbol_directory (self (boot nvda)) !! 1 = None /\
  (scan quote (boot nvda)).1 = Raise (KeyError_int 1) /\
  (scan quote (boot nvda)).1 <> Return tt.
Proof.
  split; [reflexivity |].
  unfold quote. rewrite (scan_quote_unmapped (boot nvda) header book eq_refl).
  split; [reflexivity | discriminate].
Qed.

(** C3 (as the code has it): a quote that resolves to a ticker absent from
    [last_day_lookup] prints no alert and leaves the scanner as it was.  It
    returns silently only when a side of the book is the null price;
    otherwise the subscript of line 97 raises [KeyError] with the ticker
    (or line 96 has already raised, for prices beyond the float range). *)
Theorem out_of_universe_quote (w : world) (hd : RecordHeader) (lv : BidAskPair) (s : string) :
  symbol_directory (self w) !! instrument_id hd = Some s ->
  last_day_lookup (self w) !! s = None ->
  scan (MBP1Msg hd lv) w =
    (if null_side lv then Return tt
     else match mid_price (bid_px lv) (ask_px lv) with
          | Return _ => Raise (KeyError_str s)
          | Raise e => Raise e
          end,
     w).
Proof.
  intros Hd Hl. destruct (null_side lv) eqn:Hn.
  - apply (scan_quote_null _ _ _ s); assumption.
  - destruct (mid_price (bid_px lv) (ask_px lv)) as [mid|e] eqn:Hm.
    + apply (scan_quote_unknown _ _ _ s mid); assumption.
    + apply (scan_quote_overflow _ _ _ s e); assumption.
Qed.

Lemma out_of_universe_quote_witness :
  scan quote nvda_tsla = (Raise (KeyError_str "TSLA"), nvda_tsla).
Proof.
  apply (out_of_universe_quote nvda_tsla header book "TSLA"); reflexivity.
Defined.

(** C3 as stated fails: the quote for a ticker outside the table raises. *)
Lemma out_of_universe_not_silent :
  symbol_directory (self nvda_tsla) !! 1 = Some "TSLA"%string /\
  last_day_lookup (self nvda_tsla) !! "TSLA"%string = None /\
  (scan quote nvda_tsla).1 = Raise (KeyError_str "TSLA") /\
  (scan quote nvda_tsla).1 <> Return tt.
Proof.
  split; [reflexivity |]. split; [reflexivity |].
  assert (H : scan quote nvda_tsla = (Raise (KeyError_str "TSLA"), nvda_tsla)).
  { apply (scan_quote_unknown nvda_tsla header book "TSLA" 98.190000000000012%float);
      reflexivity. }
  unfold quote in *. rewrite H. split; [reflexivity | discriminate].
Qed.

(** C6: a quote with the null price on the bid or on the ask side prints no
    alert and changes nothing, whatever its other fields are; the call
    returns when the instrument is mapped. *)
Theorem null_side_no_alert (w : world) (hd : RecordHeader) (lv : BidAskPair) :
  bid_px lv = PX_NULL \/ ask_px lv = PX_NULL ->
  (scan (MBP1Msg hd lv) w).2 = w /\
  stdout (scan (MBP1Msg hd lv) w).2 = stdout w /\
  (is_Some (symbol_directory (self w) !! instrument_id hd) ->
   scan (MBP1Msg hd lv) w = (Return tt, w)).
Proof.
  intros Hnull.
  assert (Hn : null_side lv = true).
  { unfold null_side. destruct Hnull as [-> | ->].
    - rewrite Z.eqb_refl. reflexivity.
    - rewrite Z.eqb_refl. apply orb_true_r. }
  destruct (symbol_directory (self w) !! instrument_id hd) as [s|] eqn:Hd.
  - rewrite (scan_quote_null w hd lv s Hd Hn). auto.
  - rewrite (scan_quote_unmapped w hd lv Hd). simpl.
    repeat split; auto. intros [x Hx]. discriminate.
Qed.

Lemma null_side_no_alert_witness :
  let lv := {| bid_px := PX_NULL; ask_px := 98430000000 |} in
  symbol_directory (self nvda_mapped) !! instrument_id header = Some "NVDA"%string /\
  (scan (MBP1Msg header lv) nvda_mapped).2 = nvda_mapped /\
  stdout (scan (MBP1Msg header lv) nvda_mapped).2 = stdout nvda_mapped /\
  scan (MBP1Msg header lv) nvda_mapped = (Return tt, nvda_mapped).
Proof.
  cbv zeta. split; [reflexivity |].
  destruct (null_side_no_alert nvda_mapped header
              {| bid_px := PX_NULL; ask_px := 98430000000 |}) as (H1 & H2 & H3).
  - left. reflexivity.
  - split; [exact H1 |]. split; [exact H2 |]. apply H3. eexists. reflexivity.
Defined.

(** C7: a symbol mapping prints nothing and returns, and handling the same
    mapping a second time leaves the scanner as the first handling left it. *)
Theorem mapping_idempotent (w : world) (hd : RecordHeader) (symbol : string) :
  let m := SymbolMappingMsg hd symbol in
  (scan m w).1 = Return tt /\
  stdout (scan m w).2 = stdout w /\
  scan m (scan m w).2 = scan m w /\
  (forall halt, feed halt [m; m] w = feed halt [m] w).
Proof.
  cbv zeta. repeat split.
  - run_scan. rewrite insert_insert_eq. reflexivity.
  - intros halt. unfold feed. run_scan. rewrite insert_insert_eq. reflexivity.
Qed.

(** C2 (as the code has it): for a ticker whose reference price is zero or
    below, under a threshold that is not negative, a quote prints no alert
    and leaves the scanner as it was.  The call returns when the reference
    is below zero or a side of the book is the null price; when the
    reference is exactly zero (of either sign) and both sides are present,
    line 98 raises [ZeroDivisionError]. *)
Theorem degenerate_reference_quote
    (w : world) (hd : RecordHeader) (lv : BidAskPair) (s : string) (last : float) :
  symbol_directory (self w) !! instrument_id hd = Some s ->
  last_day_lookup (self w) !! s = Some last ->
  (last <=? 0)%float = true ->
  float_gt 0 (pct_threshold (self w)) = false ->
  int64 (bid_px lv) -> int64 (ask_px lv) ->
  scan (MBP1Msg hd lv) w =
    (if null_side lv then Return tt
     else if (last =? 0)%float then Raise ZeroDivisionError
     else Return tt,
     w).
Proof.
  intros Hd Hl Hle Ht Hb Ha.
  destruct (mid_price_int64 _ _ Hb Ha) as [mid Hm].
  destruct (null_side lv) eqn:Hn.
  - apply (scan_quote_null _ _ _ s); assumption.
  - destruct (last =? 0)%float eqn:Hz.
    + apply (scan_quote_div _ _ _ s mid last); try assumption.
      unfold abs_r_of, truediv. rewrite Hz. reflexivity.
    + apply (scan_quote_below _ _ _ s mid last (abs (mid - last) / last)%float);
        try assumption.
      * unfold abs_r_of, truediv. rewrite Hz. reflexivity.
      * apply gt_nonpos; [apply abs_div_nonpos|]; assumption.
Qed.

Lemma degenerate_reference_quote_witness :
  scan quote zzzz_mapped = (Raise ZeroDivisionError, zzzz_mapped) /\
  scan quote negative_reference = (Return tt, negative_reference).
Proof.
  split.
  - apply (degenerate_reference_quote zzzz_mapped header book "ZZZZ" 0%float);
      try reflexivity; unfold int64, book; simpl; lia.
  - apply (degenerate_reference_quote negative_reference header book "ZZZZ" (-100)%float);
      try reflexivity; unfold int64, book; simpl; lia.
Defined.

(** C2 as stated fails: with the table [{"ZZZZ": 0.0}] a quote for ZZZZ
    raises. *)
Lemma zero_reference_raises :
  last_day_lookup (self zzzz_mapped) !! "ZZZZ"%string = Some 0%float /\
  (scan quote zzzz_mapped).1 = Raise ZeroDivisionError /\
  (scan quote zzzz_mapped).1 <> Return tt.
Proof.
  split; [reflexivity |].
  assert (H : (scan quote zzzz_mapped).1 = Raise ZeroDivisionError) by reflexivity.
  rewrite H. split; [reflexivity | discriminate].
Qed.

(** Under a negative threshold a negative reference price does alert. *)
Lemma negative_threshold_alerts :
  last_day_lookup (self negative_both) !! "ZZZZ"%string = Some (-100)%float /\
  length (stdout (scan quote negative_both).2) = 1%nat.
Proof. split; reflexivity. Qed.

(** ** The threshold *)

(** C5 (as the code has it): within a quote that reaches line 100, a
    relative move equal to the threshold prints nothing and changes nothing.
    A relative move above the threshold, with the signal of the ticker not
    lit, prints the alert and lights the signal when the time of the quote
    is below [2 ^ 63] nanoseconds; for a later time line 101 raises
    [OutOfBoundsDatetime], nothing is printed and the signal stays unlit. *)
Theorem threshold_is_strict
    (w : world) (hd : RecordHeader) (lv : BidAskPair) (s : string) (mid last r : float) :
  symbol_directory (self w) !! instrument_id hd = Some s ->
  null_side lv = false ->
  mid_price (bid_px lv) (ask_px lv) = Return mid ->
  last_day_lookup (self w) !! s = Some last ->
  abs_r_of mid last = Return r ->
  (float_eq r (pct_threshold (self w)) = true ->
   scan (MBP1Msg hd lv) w = (Return tt, w)) /\
  (float_gt r (pct_threshold (self w)) = true ->
   is_signal_lit (self w) !! s = Some false ->
   scan (MBP1Msg hd lv) w =
     if (ts_event hd <? 2 ^ 63)%N
     then (Return tt,
           alerted w {| alert_ts := ts_event hd; alert_symbol := s; alert_abs_r := r;
                        alert_mid := mid; alert_last := last |})
     else (Raise OutOfBoundsDatetime, w)).
Proof.
  intros Hd Hn Hm Hl Hr. split.
  - intros He. apply (scan_quote_below _ _ _ s mid last r); try assumption.
    apply gt_strict, He.
  - intros Hg Hs. destruct (ts_event hd <? 2 ^ 63)%N eqn:Ht.
    + apply scan_quote_armed; assumption.
    + apply (scan_quote_undated _ _ _ s mid last r); assumption.
Qed.

Lemma threshold_is_strict_witness :
  scan quote nvda_at_threshold = (Return tt, nvda_at_threshold) /\
  scan quote nvda_mapped = (Return tt, alerted nvda_mapped nvda_alert) /\
  scan late_quote nvda_mapped = (Raise OutOfBoundsDatetime, nvda_mapped).
Proof.
  split; [| split].
  - apply (threshold_is_strict nvda_at_threshold header book "NVDA"
             98.190000000000012%float 102.71%float 0.044007399474247706%float);
      reflexivity.
  - apply (threshold_is_strict nvda_mapped header book "NVDA"
             98.190000000000012%float 102.71%float 0.044007399474247706%float);
      reflexivity.
  - apply (threshold_is_strict nvda_mapped late_header book "NVDA"
             98.190000000000012%float 102.71%float 0.044007399474247706%float);
      reflexivity.
Defined.

(** C5 as stated fails: the quote of the scenario with the null time has a
    relative move above the threshold and the signal of NVDA is not lit,
    yet no alert is printed: the call raises. *)
Lemma late_quote_no_alert :
  exceeds (self nvda_mapped) "NVDA" late_quote /\
  is_signal_lit (self nvda_mapped) !! "NVDA"%string = Some false /\
  (scan late_quote nvda_mapped).1 = Raise OutOfBoundsDatetime /\
  stdout (scan late_quote nvda_mapped).2 = [].
Proof.
  split; [| repeat split; reflexivity].
  exists late_header, book, 98.190000000000012%float, 102.71%float,
    0.044007399474247706%float.
  repeat split; reflexivity.
Qed.

(** C10: the constructor keeps a threshold argument only when it is truthy.
    An explicit [0], [0.0] or [-0.0], like a missing argument, gives the
    default 0.03. *)
Theorem falsy_threshold_falls_back (rows : list (string * float)) :
  pct_threshold (init (Some (PyInt 0)) rows) = PyFloat PCT_MOVE_THRESHOLD /\
  pct_threshold (init (Some (PyFloat 0)) rows) = PyFloat PCT_MOVE_THRESHOLD /\
  pct_threshold (init (Some (PyFloat (-0))) rows) = PyFloat PCT_MOVE_THRESHOLD /\
  pct_threshold (init None rows) = PyFloat PCT_MOVE_THRESHOLD /\
  PCT_MOVE_THRESHOLD = 0.03%float /\
  (forall t : num,
     pct_threshold (init (Some t) rows) =
       if truthy t then t else PyFloat PCT_MOVE_THRESHOLD) /\
  (forall z : Z, truthy (PyInt z) = negb (z =? 0)) /\
  (forall f : float, truthy (PyFloat f) = negb (f =? 0)%float).
Proof. repeat split. Qed.

(** ** What one call of [scan] can change *)

(** A call either prints nothing and leaves the signals alone, or prints one
    alert for a ticker whose signal was not lit and lights it.  The
    threshold and the reference prices are never written. *)
Lemma scan_effect (event : Event) (w : world) :
  let w' := (scan event w).2 in
  pct_threshold (self w') = pct_threshold (self w) /\
  last_day_lookup (self w') = last_day_lookup (self w) /\
  ((stdout w' = stdout w /\ is_signal_lit (self w') = is_signal_lit (self w)) \/
   (exists a, w' = alerted w a /\ (scan event w).1 = Return tt /\
              is_signal_lit (self w) !! alert_symbol a = Some false)).
Proof.
  destruct event as [hd symbol | hd lv |]; cbv zeta.
  - run_scan. auto.
  - destruct (symbol_directory (self w) !! instrument_id hd) as [s|] eqn:Hd;
      [| rewrite (scan_quote_unmapped _ _ _ Hd); simpl; auto].
    destruct (null_side lv) eqn:Hn;
      [rewrite (scan_quote_null _ _ _ _ Hd Hn); simpl; auto |].
    destruct (mid_price (bid_px lv) (ask_px lv)) as [mid|e] eqn:Hm;
      [| rewrite (scan_quote_overflow _ _ _ _ _ Hd Hn Hm); simpl; auto].
    destruct (last_day_lookup (self w) !! s) as [last|] eqn:Hl;
      [| rewrite (scan_quote_unknown _ _ _ _ _ Hd Hn Hm Hl); simpl; auto].
    destruct (abs_r_of mid last) as [r|e] eqn:Hr;
      [| rewrite (scan_quote_div _ _ _ _ _ _ _ Hd Hn Hm Hl Hr); simpl; auto].
    destruct (float_gt r (pct_threshold (self w))) eqn:Hg;
      [| rewrite (scan_quote_below _ _ _ _ _ _ _ Hd Hn Hm Hl Hr Hg); simpl; auto].
    destruct (is_signal_lit (self w) !! s) as [[]|] eqn:Hs.
    + rewrite (scan_quote_fired _ _ _ _ _ _ _ Hd Hn Hm Hl Hr Hg Hs); simpl; auto.
    + destruct (ts_event hd <? 2 ^ 63)%N eqn:Ht;
        [| rewrite (scan_quote_undated _ _ _ _ _ _ _ Hd Hn Hm Hl Hr Hg Hs Ht); simpl; auto].
      rewrite (scan_quote_armed _ _ _ _ _ _ _ Hd Hn Hm Hl Hr Hg Hs Ht); simpl.
      split; [reflexivity |]. split; [reflexivity |]. right.
      eexists. split; [reflexivity |]. split; [reflexivity |]. exact Hs.
    + rewrite (scan_quote_untracked _ _ _ _ _ _ _ Hd Hn Hm Hl Hr Hg Hs); simpl; auto.
  - run_scan. auto.
Qed.

(** A call that raises has printed nothing and has lit nothing. *)
Lemma scan_raise_effect (event : Event) (w : world) (e : exn) :
  (scan event w).1 = Raise e ->
  stdout (scan event w).2 = stdout w /\
  is_signal_lit (self (scan event w).2) = is_signal_lit (self w).
Proof.
  intros He. destruct (scan_effect event w) as (_ & _ & [H | (a & _ & Hr & _)]).
  - exact H.
  - congruence.
Qed.

(** [feed] as a recursion on the world the call leaves. *)
Lemma feed_cons (halt : bool) (event : Event) (rest : list Event) (w : world) :
  feed halt (event :: rest) w = (scan event w).2 \/
  feed halt (event :: rest) w = feed halt rest (scan event w).2.
Proof.
  simpl. destruct (scan event w) as [[u|e] w']; simpl; auto.
  destruct halt; auto.
Qed.

Lemma lit_stays_lit (event : Event) (w : world) (s : string) :
  is_signal_lit (self w) !! s = Some true ->
  is_signal_lit (self (scan event w).2) !! s = Some true.
Proof.
  intros Hs. destruct (scan_effect event w) as (_ & _ & [[_ H] | (a & H & _ & _)]).
  - rewrite H. exact Hs.
  - rewrite H. simpl. destruct (decide (alert_symbol a = s)) as [-> | Hne].
    + apply lookup_insert_eq.
    + rewrite lookup_insert_ne by exact Hne. exact Hs.
Qed.

Lemma lit_no_alert (event : Event) (w : world) (s : string) :
  is_signal_lit (self w) !! s = Some true ->
  alerts_for s (scan event w).2 = alerts_for s w.
Proof.
  intros Hs. unfold alerts_for.
  destruct (scan_effect event w) as (_ & _ & [[H _] | (a & H & _ & Ha)]).
  - rewrite H. reflexivity.
  - rewrite H. simpl. rewrite filter_app.
    assert (Hne : alert_symbol a <> s) by congruence.
    rewrite (filter_cons_False _ a []) by exact Hne.
    rewrite filter_nil, app_nil_r. reflexivity.
Qed.

Lemma feed_lit_no_alert (halt : bool) (events : list Event) (w : world) (s : string) :
  is_signal_lit (self w) !! s = Some true ->
  alerts_for s (feed halt events w) = alerts_for s w.
Proof.
  revert w. induction events as [| event rest IH]; intros w Hs; [reflexivity |].
  destruct (feed_cons halt event rest w) as [-> | ->].
  - apply lit_no_alert, Hs.
  - rewrite IH by (apply lit_stays_lit, Hs). apply lit_no_alert, Hs.
Qed.

Lemma feed_alerts_bound (halt : bool) (events : list Event) (w : world) (s : string) :
  (length (alerts_for s (feed halt events w)) <= S (length (alerts_for s w)))%nat.
Proof.
  revert w. induction events as [| event rest IH]; intros w; [simpl; lia |].
  assert (Hstep : (length (alerts_for s (scan event w).2) <= S (length (alerts_for s w)))%nat
                  /\ (alerts_for s (scan event w).2 = alerts_for s w \/
                      is_signal_lit (self (scan event w).2) !! s = Some true)).
  { unfold alerts_for.
    destruct (scan_effect event w) as (_ & _ & [[H _] | (a & H & _ & Ha)]).
    - rewrite H. split; [lia | left; reflexivity].
    - rewrite H. simpl. rewrite filter_app, length_app.
      destruct (decide (alert_symbol a = s)) as [Heq | Hne].
      + rewrite (filter_cons_True _ a []) by exact Heq. rewrite filter_nil. simpl.
        split; [lia |]. right. rewrite <- Heq. apply lookup_insert_eq.
      + rewrite (filter_cons_False _ a []) by exact Hne. rewrite filter_nil. simpl.
        split; [lia |]. left. rewrite app_nil_r. reflexivity. }
  destruct Hstep as [Hlen Hcase].
  destruct (feed_cons halt event rest w) as [-> | ->]; [exact Hlen |].
  destruct Hcase as [Hsame | Hlit].
  - specialize (IH (scan event w).2). unfold alerts_for in *. rewrite Hsame in IH. exact IH.
  - rewrite (feed_lit_no_alert halt rest _ s Hlit). exact Hlen.
Qed.

(** ** The end-to-end scenario *)


(** ** The reference prices *)

(** C9: no call of [scan] writes [last_day_lookup]; after any events of a
    session it is the table the constructor built. *)
Theorem reference_table_read_only :
  (forall (event : Event) (w : world),
     last_day_lookup (self (scan event w).2) = last_day_lookup (self w)) /\
  (forall (halt : bool) (events : list Event) (w : world),
     last_day_lookup (self (feed halt events w)) = last_day_lookup (self w)) /\
  (forall (halt : bool) (events : list Event) (pct_threshold : option num)
          (rows : list (string * float)),
     last_day_lookup (self (feed halt events (boot (init pct_threshold rows)))) =
       get_last_day_lookup rows).
Proof.
  assert (Hstep : forall event w,
            last_day_lookup (self (scan event w).2) = last_day_lookup (self w)).
  { intros event w. apply (scan_effect event w). }
  assert (Hfeed : forall halt events w,
            last_day_lookup (self (feed halt events w)) = last_day_lookup (self w)).
  { intros halt events. induction events as [| event rest IH]; intros w; [reflexivity |].
    destruct (feed_cons halt event rest w) as [-> | ->].
    - apply Hstep.
    - rewrite IH. apply Hstep. }
  split; [exact Hstep |]. split; [exact Hfeed |].
  intros halt events thr rows. rewrite Hfeed. reflexivity.
Qed.

(** ** Every call follows one path *)

Lemma mid_price_raises bid ask e : mid_price bid ask = Raise e -> e = OverflowError.
Proof.
  unfold mid_price, float_of_int.
  destruct (binary_normalize prec emax (bid + ask) 0 false); congruence.
Qed.

Lemma abs_r_of_raises mid last e :
  abs_r_of mid last = Raise e -> e = ZeroDivisionError /\ (last =? 0)%float = true.
Proof.
  unfold abs_r_of, truediv. destruct (last =? 0)%float; [| discriminate].
  intros [= <-]. auto.
Qed.

Lemma scan_path (event : Event) (w : world) :
  path w event (scan event w).1 (scan event w).2.
Proof.
  destruct event as [hd symbol | hd lv |].
  - apply path_mapping.
  - destruct (symbol_directory (self w) !! instrument_id hd) as [s|] eqn:Hd;
      [| rewrite (scan_quote_unmapped _ _ _ Hd); apply path_unmapped, Hd].
    destruct (null_side lv) eqn:Hn;
      [rewrite (scan_quote_null _ _ _ _ Hd Hn); apply (path_null _ _ _ s); assumption |].
    destruct (mid_price (bid_px lv) (ask_px lv)) as [mid|e] eqn:Hm.
    2:{ rewrite (scan_quote_overflow _ _ _ _ _ Hd Hn Hm).
        pose proof (mid_price_raises _ _ _ Hm) as ->.
        apply (path_overflow _ _ _ s); assumption. }
    destruct (last_day_lookup (self w) !! s) as [last|] eqn:Hl;
      [| rewrite (scan_quote_unknown _ _ _ _ _ Hd Hn Hm Hl);
         apply (path_unknown _ _ _ s mid); assumption].
    destruct (abs_r_of mid last) as [r|e] eqn:Hr.
    2:{ rewrite (scan_quote_div _ _ _ _ _ _ _ Hd Hn Hm Hl Hr).
        destruct (abs_r_of_raises _ _ _ Hr) as [-> Hz].
        apply (path_zero _ _ _ s mid last); assumption. }
    destruct (float_gt r (pct_threshold (self w))) eqn:Hg;
      [| rewrite (scan_quote_below _ _ _ _ _ _ _ Hd Hn Hm Hl Hr Hg);
         apply (path_below _ _ _ s mid last r); assumption].
    destruct (is_signal_lit (self w) !! s) as [[]|] eqn:Hs.
    + rewrite (scan_quote_fired _ _ _ _ _ _ _ Hd Hn Hm Hl Hr Hg Hs).
      apply (path_fired _ _ _ s mid last r); assumption.
    + destruct (ts_event hd <? 2 ^ 63)%N eqn:Ht.
      * rewrite (scan_quote_armed _ _ _ _ _ _ _ Hd Hn Hm Hl Hr Hg Hs Ht).
        apply path_armed; assumption.
      * rewrite (scan_quote_undated _ _ _ _ _ _ _ Hd Hn Hm Hl Hr Hg Hs Ht).
        apply (path_undated _ _ _ s mid last r); assumption.
    + rewrite (scan_quote_untracked _ _ _ _ _ _ _ Hd Hn Hm Hl Hr Hg Hs).
      apply (path_untracked _ _ _ s mid last r); assumption.
  - apply path_other.
Qed.

(** [feed], one event at a time. *)
Lemma feed_step (halt : bool) (event : Event) (rest : list Event) (w : world) :
  feed halt (event :: rest) w =
    match (scan event w).1 with
    | Return _ => feed halt rest (scan event w).2
    | Raise _ => if halt then (scan event w).2 else feed halt rest (scan event w).2
    end.
Proof. simpl. destruct (scan event w) as [[u|e] w']; reflexivity. Qed.

(** A property of worlds kept by every call is kept by every session. *)
Lemma feed_invariant (P : world -> Prop) :
  (forall event w, P w -> P (scan event w).2) ->
  forall halt events w, P w -> P (feed halt events w).
Proof.
  intros Hstep halt events. induction events as [| event rest IH]; intros w Hw;
    [exact Hw |].
  destruct (feed_cons halt event rest w) as [-> | ->]; auto.
Qed.

(** ** Calls that raise *)

(** X1: a call of [scan] that raises has changed nothing, neither the
    scanner nor what was printed, and the event is a quote.  [KeyError] with
    an instrument id means the id is not mapped; [KeyError] with a ticker
    means the ticker has no reference price or no signal;
    [ZeroDivisionError] means the reference price of the ticker is zero;
    [OverflowError] means the sum of the two prices is beyond the floats;
    [OutOfBoundsDatetime] means the quote was about to be reported (its
    move is above the threshold and the signal of its ticker is unlit) and
    its time is [2 ^ 63] nanoseconds or later. *)
Theorem failed_call_changes_nothing (event : Event) (w : world) (e : exn) :
  (scan event w).1 = Raise e ->
  (scan event w).2 = w /\
  exists hd lv,
    event = MBP1Msg hd lv /\
    match e with
    | KeyError_int k =>
        k = instrument_id hd /\ symbol_directory (self w) !! k = None
    | KeyError_str s =>
        symbol_directory (self w) !! instrument_id hd = Some s /\
        null_side lv = false /\
        (last_day_lookup (self w) !! s = None \/ is_signal_lit (self w) !! s = None)
    | ZeroDivisionError =>
        exists s last,
          symbol_directory (self w) !! instrument_id hd = Some s /\
          null_side lv = false /\
          last_day_lookup (self w) !! s = Some last /\
          (last =? 0)%float = true
    | OverflowError =>
        null_side lv = false /\
        mid_price (bid_px lv) (ask_px lv) = Raise OverflowError
    | OutOfBoundsDatetime =>
        exists s mid last r,
          symbol_directory (self w) !! instrument_id hd = Some s /\
          null_side lv = false /\
          mid_price (bid_px lv) (ask_px lv) = Return mid /\
          last_day_lookup (self w) !! s = Some last /\
          abs_r_of mid last = Return r /\
          float_gt r (pct_threshold (self w)) = true /\
          is_signal_lit (self w) !! s = Some false /\
          (ts_event hd <? 2 ^ 63)%N = false
    end.
Proof.
  pose proof (scan_path event w) as Hp.
  destruct (scan event w) as [o w']. simpl in *. intros ->.
  inversion Hp; subst; (split; [reflexivity |]); eexists _, _;
    (split; [reflexivity |]); eauto 15.
Qed.

Lemma failed_call_changes_nothing_witness :
  ((scan quote zzzz_mapped).2 = zzzz_mapped /\
   exists hd lv,
     quote = MBP1Msg hd lv /\
     exists s last,
       symbol_directory (self zzzz_mapped) !! instrument_id hd = Some s /\
       null_side lv = false /\
       last_day_lookup (self zzzz_mapped) !! s = Some last /\
       (last =? 0)%float = true) /\
  (scan late_quote nvda_mapped).2 = nvda_mapped.
Proof.
  split.
  - apply (failed_call_changes_nothing quote zzzz_mapped ZeroDivisionError).
    reflexivity.
  - apply (failed_call_changes_nothing late_quote nvda_mapped OutOfBoundsDatetime).
    reflexivity.
Defined.

(** X2: on a quote whose two prices are 64-bit, [scan] never raises
    [OverflowError]: line 96 always has a float to give. *)
Theorem quote_never_overflows (w : world) (hd : RecordHeader) (lv : BidAskPair) :
  int64 (bid_px lv) -> int64 (ask_px lv) ->
  (scan (MBP1Msg hd lv) w).1 <> Raise OverflowError.
Proof.
  intros Hb Ha He.
  destruct (mid_price_int64 _ _ Hb Ha) as [mid Hm].
  pose proof (scan_path (MBP1Msg hd lv) w) as Hp. rewrite He in Hp.
  inversion Hp; subst; congruence.
Qed.

Lemma quote_never_overflows_witness :
  (scan (MBP1Msg header {| bid_px := 2 ^ 63 - 2; ask_px := 2 ^ 63 - 2 |}) nvda_mapped).1
    <> Raise OverflowError.
Proof.
  apply (quote_never_overflows nvda_mapped header
           {| bid_px := 2 ^ 63 - 2; ask_px := 2 ^ 63 - 2 |});
    unfold int64; simpl; lia.
Defined.

(** ** Invariants of a session *)

Lemma tracked_init thr rows : tracked (init thr rows).
Proof. unfold tracked, init. simpl. apply dom_fmap_L. Qed.

Lemma tracked_scan event w : tracked (self w) -> tracked (self (scan event w).2).
Proof.
  unfold tracked. intros Ht. pose proof (scan_path event w) as Hp.
  destruct (scan event w) as [o w']. simpl in *.
  inversion Hp; subst; simpl; try exact Ht.
  rewrite dom_insert_lookup_L by eauto. exact Ht.
Qed.

(** X3: in every state a session reaches, the tickers that have a signal
    are the tickers of the table.  So the subscript of [is_signal_lit] on
    line 100 never fails there: a [KeyError] with a ticker always means the
    ticker has no reference price. *)
Theorem signals_track_the_table
    (halt : bool) (thr : option num) (rows : list (string * float)) (events : list Event) :
  tracked (self (session halt thr rows events)) /\
  forall (event : Event) (s : string),
    (scan event (session halt thr rows events)).1 = Raise (KeyError_str s) ->
    last_day_lookup (self (session halt thr rows events)) !! s = None.
Proof.
  assert (Ht : tracked (self (session halt thr rows events))).
  { unfold session.
    apply (feed_invariant (fun w => tracked (self w))).
    - apply tracked_scan.
    - apply tracked_init. }
  split; [exact Ht |].
  intros event s He. set (w := session halt thr rows events) in *.
  pose proof (scan_path event w) as Hp. rewrite He in Hp.
  inversion Hp; subst; [assumption |].
  exfalso. unfold tracked in Ht.
  assert (Hin : s ∈ dom (last_day_lookup (self w))) by (apply elem_of_dom; eauto).
  rewrite <- Ht in Hin. apply elem_of_dom in Hin as [b Hb]. congruence.
Qed.

Lemma signals_track_the_table_witness :
  last_day_lookup (self (session true (Some (PyFloat 0.03))
                           [("NVDA"%string, 102.71%float)] [mapping "TSLA"]))
    !! "TSLA"%string = None.
Proof.
  apply (proj2 (signals_track_the_table true (Some (PyFloat 0.03))
                  [("NVDA"%string, 102.71%float)] [mapping "TSLA"]) quote "TSLA").
  reflexivity.
Defined.

Lemma lit_as_printed_init thr rows : lit_as_printed (boot (init thr rows)).
Proof.
  intros s. simpl. rewrite lookup_fmap. split.
  - destruct (get_last_day_lookup rows !! s); discriminate.
  - intros H. apply elem_of_nil in H. contradiction.
Qed.

Lemma lit_as_printed_scan event w :
  lit_as_printed w -> lit_as_printed (scan event w).2.
Proof.
  intros Hw. pose proof (scan_path event w) as Hp.
  destruct (scan event w) as [o w']. simpl in *.
  inversion Hp; subst; try exact Hw.
  intros s'. simpl. rewrite fmap_app, elem_of_app. simpl.
  rewrite list_elem_of_singleton.
  destruct (decide (s = s')) as [<- | Hne].
  - rewrite lookup_insert_eq. split; auto.
  - rewrite lookup_insert_ne by exact Hne. rewrite (Hw s'). split.
    + auto.
    + intros [Hin | Heq]; [exact Hin | congruence].
Qed.

(** X4: in every state a session reaches, the signal of a ticker is lit
    exactly when an alert for that ticker has been printed. *)
Theorem lit_exactly_when_alerted
    (halt : bool) (thr : option num) (rows : list (string * float))
    (events : list Event) (s : string) :
  is_signal_lit (self (session halt thr rows events)) !! s = Some true <->
  exists a, a ∈ stdout (session halt thr rows events) /\ alert_symbol a = s.
Proof.
  assert (H : lit_as_printed (session halt thr rows events)).
  { unfold session. apply feed_invariant.
    - apply lit_as_printed_scan.
    - apply lit_as_printed_init. }
  rewrite (H s), list_elem_of_fmap. split.
  - intros (a & -> & Ha). eauto.
  - intros (a & Ha & <-). eauto.
Qed.

Lemma lit_exactly_when_alerted_witness :
  is_signal_lit (self (session true (Some (PyFloat 0.03))
                         [("NVDA"%string, 102.71%float)] [mapping "NVDA"; quote]))
    !! "NVDA"%string = Some true.
Proof.
  apply (proj2 (lit_exactly_when_alerted true (Some (PyFloat 0.03))
                  [("NVDA"%string, 102.71%float)] [mapping "NVDA"; quote] "NVDA")).
  exists nvda_alert. split; [vm_compute; left | reflexivity].
Defined.

(** ** What a session prints *)

Lemma scan_keeps_config event w :
  pct_threshold (self (scan event w).2) = pct_threshold (self w) /\
  last_day_lookup (self (scan event w).2) = last_day_lookup (self w).
Proof. destruct (scan_effect event w) as (H1 & H2 & _). auto. Qed.

Lemma justified_scan (sc : Scanner) event w :
  pct_threshold (self w) = pct_threshold sc ->
  last_day_lookup (self w) = last_day_lookup sc ->
  Forall (justified sc) (stdout w) ->
  Forall (justified sc) (stdout (scan event w).2).
Proof.
  intros Ht Hl Hw. pose proof (scan_path event w) as Hp.
  destruct (scan event w) as [o w']. simpl in *.
  inversion Hp; subst; try exact Hw.
  simpl. apply Forall_app. split; [exact Hw |].
  constructor; [| constructor].
  unfold justified. simpl. rewrite <- Hl, <- Ht. auto.
Qed.

Lemma feed_justified (halt : bool) (events : list Event) (sc : Scanner) :
  Forall (justified sc) (stdout (feed halt events (boot sc))).
Proof.
  assert (H : pct_threshold (self (feed halt events (boot sc))) = pct_threshold sc /\
              last_day_lookup (self (feed halt events (boot sc))) = last_day_lookup sc /\
              Forall (justified sc) (stdout (feed halt events (boot sc)))).
  { apply (feed_invariant (fun w =>
             pct_threshold (self w) = pct_threshold sc /\
             last_day_lookup (self w) = last_day_lookup sc /\
             Forall (justified sc) (stdout w))).
    - intros event w (Ht & Hl & Hw).
      destruct (scan_keeps_config event w) as [Ht' Hl'].
      split; [congruence |]. split; [congruence |].
      apply justified_scan; assumption.
    - simpl. auto. }
  apply H.
Qed.

(** X5: every alert a scanner prints is justified by its table and its
    threshold: the ticker is in the table with the reference the alert
    shows, the relative move shown is [abs(mid - last) / last] for the mid
    and the reference shown (so the reference is not zero), and it is above
    the threshold.  In particular no alert is ever printed for a ticker
    outside the table. *)
Theorem alerts_are_justified
    (halt : bool) (events : list Event) (sc : Scanner) (a : Alert) :
  a ∈ stdout (feed halt events (boot sc)) ->
  justified sc a /\
  is_Some (last_day_lookup sc !! alert_symbol a) /\
  (alert_last a =? 0)%float = false.
Proof.
  intros Ha. pose proof (feed_justified halt events sc) as Hall.
  rewrite Forall_forall in Hall. pose proof (Hall a Ha) as Hj.
  split; [exact Hj |]. destruct Hj as (Hl & Hr & _). split; [eauto |].
  unfold abs_r_of, truediv in Hr.
  destruct (alert_last a =? 0)%float; [discriminate | reflexivity].
Qed.

Lemma alerts_are_justified_witness :
  justified (self nvda_mapped) nvda_alert /\
  is_Some (last_day_lookup (self nvda_mapped) !! alert_symbol nvda_alert) /\
  (alert_last nvda_alert =? 0)%float = false.
Proof.
  apply (alerts_are_justified true [quote; quote] (self nvda_mapped) nvda_alert).
  vm_compute. left.
Defined.

Lemma scan_raise_unchanged event w e : (scan event w).1 = Raise e -> (scan event w).2 = w.
Proof.
  intros He. pose proof (scan_path event w) as Hp.
  destruct (scan event w) as [o w']. simpl in *. subst o.
  inversion Hp; subst; reflexivity.
Qed.

(** X7: when the session goes on after exceptions, feeding two batches of
    events one after the other is feeding them as one; and events that
    raise can be left out of such a session without changing its result. *)
Theorem feed_batches (events1 events2 : list Event) (w : world) :
  feed false (events1 ++ events2) w = feed false events2 (feed false events1 w) /\
  (forall event e, (scan event (feed false events1 w)).1 = Raise e ->
     feed false (events1 ++ event :: events2) w = feed false (events1 ++ events2) w).
Proof.
  assert (Happ : forall l1 l2 w0,
            feed false (l1 ++ l2) w0 = feed false l2 (feed false l1 w0)).
  { induction l1 as [| event rest IH]; intros l2 w0; [reflexivity |].
    rewrite <- app_comm_cons, !feed_step.
    destruct (scan event w0).1; apply IH. }
  split; [apply Happ |].
  intros event e He. rewrite !Happ, feed_step, He.
  rewrite (scan_raise_unchanged _ _ _ He). reflexivity.
Qed.

Lemma feed_batches_witness :
  feed false ([mapping "NVDA"] ++ [quote]) (boot nvda)
    = feed false [quote] (feed false [mapping "NVDA"] (boot nvda)) /\
  feed false ([] ++ quote :: [mapping "NVDA"; quote]) (boot nvda)
    = feed false ([] ++ [mapping "NVDA"; quote]) (boot nvda).
Proof.
  split.
  - apply (proj1 (feed_batches [mapping "NVDA"] [quote] (boot nvda))).
  - apply (proj2 (feed_batches [] [mapping "NVDA"; quote] (boot nvda)) quote (KeyError_int 1)).
    reflexivity.
Defined.

Lemma printed_once_scan event w :
  (NoDup (alert_symbol <$> stdout w) /\
   forall s, s ∈ alert_symbol <$> stdout w -> is_signal_lit (self w) !! s = Some true) ->
  NoDup (alert_symbol <$> stdout (scan event w).2) /\
  forall s, s ∈ alert_symbol <$> stdout (scan event w).2 ->
            is_signal_lit (self (scan event w).2) !! s = Some true.
Proof.
  intros [Hnd Hlit]. pose proof (scan_path event w) as Hp.
  destruct (scan event w) as [o w']. simpl in *.
  inversion Hp; subst; try (split; assumption).
  simpl. rewrite fmap_app. simpl. split.
  - apply NoDup_app. split; [exact Hnd |]. split; [| apply NoDup_singleton].
    intros x Hx Hx'. apply list_elem_of_singleton in Hx'. subst x.
    specialize (Hlit _ Hx). congruence.
  - intros s' Hs'. apply elem_of_app in Hs' as [Hin | Heq].
    + destruct (decide (s = s')) as [<- | Hne]; [apply lookup_insert_eq |].
      rewrite lookup_insert_ne by exact Hne. apply Hlit, Hin.
    + apply list_elem_of_singleton in Heq. subst s'. apply lookup_insert_eq.
Qed.

(** X8: the alerts a scanner prints are for pairwise different tickers, all
    of them tickers of its table; a session therefore prints at most as
    many alerts as the table has entries, however many events it is fed. *)
Theorem alerts_bounded_by_table (halt : bool) (events : list Event) (sc : Scanner) :
  NoDup (alert_symbol <$> stdout (feed halt events (boot sc))) /\
  (length (stdout (feed halt events (boot sc))) <= size (last_day_lookup sc))%nat.
Proof.
  assert (Hnd : NoDup (alert_symbol <$> stdout (feed halt events (boot sc)))).
  { apply (feed_invariant (fun w =>
             NoDup (alert_symbol <$> stdout w) /\
             forall s, s ∈ alert_symbol <$> stdout w ->
                       is_signal_lit (self w) !! s = Some true)).
    - apply printed_once_scan.
    - simpl. split; [apply NoDup_nil_2 |]. intros s Hs. apply elem_of_nil in Hs as []. }
  split; [exact Hnd |].
  pose proof (feed_justified halt events sc) as Hall. rewrite Forall_forall in Hall.
  rewrite <- (length_fmap alert_symbol), <- (size_list_to_set (C := gset string)) by exact Hnd.
  rewrite <- (size_dom (D := gset string)). apply subseteq_size.
  intros s Hs. apply elem_of_list_to_set, list_elem_of_fmap in Hs as (a & -> & Ha).
  apply elem_of_dom. destruct (Hall a Ha) as (Hl & _). eauto.
Qed.

(** ** The tables of the scanner *)

(** X9: the instrument directory is written only by symbol mappings and
    nothing is ever removed from it: after a mapping the instrument
    resolves to the ticker of the mapping, whatever it resolved to before;
    an instrument resolves to a ticker after a call only if it did before
    or the event maps it to that ticker; and an instrument that is mapped
    stays mapped for the rest of the session. *)
Theorem directory_only_grows :
  (forall hd symbol w,
     symbol_directory (self (scan (SymbolMappingMsg hd symbol) w).2) !! instrument_id hd
       = Some symbol) /\
  (forall event w k s,
     symbol_directory (self (scan event w).2) !! k = Some s ->
     symbol_directory (self w) !! k = Some s \/
     exists hd, event = SymbolMappingMsg hd s /\ instrument_id hd = k) /\
  (forall halt events w k,
     is_Some (symbol_directory (self w) !! k) ->
     is_Some (symbol_directory (self (feed halt events w)) !! k)).
Proof.
  split; [| split].
  - intros hd symbol w. run_scan. apply lookup_insert_eq.
  - intros event w k s. pose proof (scan_path event w) as Hp.
    destruct (scan event w) as [o w']. simpl in *.
    inversion Hp; subst; simpl; auto.
    destruct (decide (instrument_id hd = k)) as [<- | Hne].
    + rewrite lookup_insert_eq. intros [= ->]. right. eauto.
    + rewrite lookup_insert_ne by exact Hne. auto.
  - intros halt events w k.
    apply (feed_invariant (fun w' => is_Some (symbol_directory (self w') !! k))).
    intros event w' Hk. pose proof (scan_path event w') as Hp.
    destruct (scan event w') as [o w'']. simpl in *.
    inversion Hp; subst; simpl; auto.
    destruct (decide (instrument_id hd = k)) as [<- | Hne].
    + rewrite lookup_insert_eq. eauto.
    + rewrite lookup_insert_ne by exact Hne. exact Hk.
Qed.

Lemma directory_only_grows_witness :
  is_Some (symbol_directory (self (feed true [quote; mapping "TSLA"; quote] nvda_mapped)) !! 1).
Proof.
  apply (proj2 (proj2 directory_only_grows) true [quote; mapping "TSLA"; quote] nvda_mapped 1).
  vm_compute. eauto.
Defined.

(** X10: a call changes the signal of a ticker only by printing an alert
    for that ticker, and then from unlit to lit: the signals of all other
    tickers are as before, and no signal is ever created or removed. *)
Theorem signal_changes_only_by_alert (event : Event) (w : world) (s : string) :
  is_signal_lit (self (scan event w).2) !! s <> is_signal_lit (self w) !! s ->
  is_signal_lit (self w) !! s = Some false /\
  is_signal_lit (self (scan event w).2) !! s = Some true /\
  exists a, alert_symbol a = s /\ stdout (scan event w).2 = stdout w ++ [a].
Proof.
  pose proof (scan_path event w) as Hp.
  destruct (scan event w) as [o w']. simpl in *.
  inversion Hp; subst; simpl; try congruence.
  destruct (decide (s0 = s)) as [<- | Hne].
  - rewrite lookup_insert_eq. intros _. split; [assumption |]. split; [reflexivity |].
    eexists. split; [| reflexivity]. reflexivity.
  - rewrite lookup_insert_ne by exact Hne. congruence.
Qed.

Lemma signal_changes_only_by_alert_witness :
  is_signal_lit (self nvda_mapped) !! "NVDA"%string = Some false /\
  is_signal_lit (self (scan quote nvda_mapped).2) !! "NVDA"%string = Some true /\
  exists a, alert_symbol a = "NVDA"%string /\
            stdout (scan quote nvda_mapped).2 = stdout nvda_mapped ++ [a].
Proof.
  apply (signal_changes_only_by_alert quote nvda_mapped "NVDA").
  vm_compute. discriminate.
Defined.

(** ** Reference prices at the edges *)

Lemma SFsub_diag x :
  SFsub prec emax x x = S754_zero false \/ SFsub prec emax x x = S754_nan.
Proof.
  destruct x as [s | s | | s m e]; simpl.
  - destruct s; auto.
  - destruct s; auto.
  - auto.
  - rewrite Z.sub_diag. auto.
Qed.

(** [abs(x - x) / y] is zero or not a number. *)
Lemma flat_move_nonpos (x y : float) : nonpos (Prim2SF (abs (x - x) / y)).
Proof.
  rewrite FloatAxioms.div_spec, FloatAxioms.abs_spec, FloatAxioms.sub_spec.
  unfold SF64div, SF64sub.
  destruct (SFsub_diag (Prim2SF x)) as [-> | ->]; simpl.
  - destruct (Prim2SF y); exact I.
  - exact I.
Qed.

(** X11: a quote whose mid price is the reference price of its ticker
    prints nothing and changes nothing, under every threshold that is not
    negative. *)
Theorem flat_quote_is_silent
    (w : world) (hd : RecordHeader) (lv : BidAskPair) (s : string) (last : float) :
  symbol_directory (self w) !! instrument_id hd = Some s ->
  null_side lv = false ->
  mid_price (bid_px lv) (ask_px lv) = Return last ->
  last_day_lookup (self w) !! s = Some last ->
  (last =? 0)%float = false ->
  float_gt 0 (pct_threshold (self w)) = false ->
  scan (MBP1Msg hd lv) w = (Return tt, w).
Proof.
  intros Hd Hn Hm Hl Hz Ht.
  apply (scan_quote_below _ _ _ s last last (abs (last - last) / last)%float);
    try assumption.
  - unfold abs_r_of, truediv. rewrite Hz. reflexivity.
  - apply gt_nonpos; [apply flat_move_nonpos | exact Ht].
Qed.

Lemma flat_quote_is_silent_witness : scan quote nvda_flat = (Return tt, nvda_flat).
Proof.
  apply (flat_quote_is_silent nvda_flat header book "NVDA" 98.190000000000012%float);
    reflexivity.
Defined.

Lemma Prim2SF_nan (x : float) : is_nan x = true -> Prim2SF x = S754_nan.
Proof. intros H. unfold Prim2SF. rewrite H. reflexivity. Qed.

Lemma nan_move (mid last : float) :
  is_nan last = true -> Prim2SF (abs (mid - last) / last) = S754_nan.
Proof.
  intros H. rewrite FloatAxioms.div_spec, FloatAxioms.abs_spec, FloatAxioms.sub_spec.
  unfold SF64div, SF64sub. rewrite (Prim2SF_nan last H).
  destruct (Prim2SF mid); reflexivity.
Qed.

Lemma float_gt_nan (r : float) (t : num) : Prim2SF r = S754_nan -> float_gt r t = false.
Proof.
  intros H. destruct t as [z | f]; unfold float_gt.
  - unfold float_cmp_int. rewrite H. reflexivity.
  - rewrite FloatAxioms.ltb_spec, H. unfold SFltb.
    destruct (Prim2SF f); reflexivity.
Qed.

(** X12: when the table holds no number (a NaN) for a ticker, every quote
    for that ticker with 64-bit prices returns without an alert and without
    a change, whatever the threshold is: the ticker is never reported. *)
Theorem nan_reference_is_silent
    (w : world) (hd : RecordHeader) (lv : BidAskPair) (s : string) (last : float) :
  symbol_directory (self w) !! instrument_id hd = Some s ->
  last_day_lookup (self w) !! s = Some last ->
  is_nan last = true ->
  int64 (bid_px lv) -> int64 (ask_px lv) ->
  scan (MBP1Msg hd lv) w = (Return tt, w).
Proof.
  intros Hd Hl Hnan Hb Ha.
  destruct (null_side lv) eqn:Hn; [apply (scan_quote_null _ _ _ s); assumption |].
  destruct (mid_price_int64 _ _ Hb Ha) as [mid Hm].
  assert (Hz : (last =? 0)%float = false).
  { rewrite FloatAxioms.eqb_spec, (Prim2SF_nan last Hnan). reflexivity. }
  apply (scan_quote_below _ _ _ s mid last (abs (mid - last) / last)%float);
    try assumption.
  - unfold abs_r_of, truediv. rewrite Hz. reflexivity.
  - apply float_gt_nan, nan_move, Hnan.
Qed.

Lemma nan_reference_is_silent_witness : scan quote nvda_nan = (Return tt, nvda_nan).
Proof.
  apply (nan_reference_is_silent nvda_nan header book "NVDA" nan);
    try reflexivity; unfold int64, book; simpl; lia.
Defined.

(** ** Construction *)

Lemma foldl_insert_other (rows : list (string * float)) (d : gmap string float) (s : string) :
  s ∉ rows.*1 ->
  foldl (fun d row => <[row.1 := row.2]> d) d rows !! s = d !! s.
Proof.
  revert d. induction rows as [| [k v] rest IH]; intros d Hs; [reflexivity |].
  simpl in *. apply not_elem_of_cons in Hs as [Hne Hrest].
  rewrite IH by exact Hrest. apply lookup_insert_ne. congruence.
Qed.

Lemma foldl_insert_keys (rows : list (string * float)) (d : gmap string float) (s : string) :
  is_Some (foldl (fun d row => <[row.1 := row.2]> d) d rows !! s) <->
  is_Some (d !! s) \/ s ∈ rows.*1.
Proof.
  revert d. induction rows as [| [k v] rest IH]; intros d; simpl.
  - split; [auto |]. intros [H | H]; [exact H |]. apply elem_of_nil in H as [].
  - rewrite IH, elem_of_cons. destruct (decide (k = s)) as [-> | Hne].
    + rewrite lookup_insert_eq. split; [intros _; right; left; reflexivity |].
      intros _. left. eauto.
    + rewrite lookup_insert_ne by exact Hne. split.
      * intros [H | H]; auto.
      * intros [H | [H | H]]; auto. congruence.
Qed.

(** X13: the table built from the rows of the data frame has exactly the
    tickers of the rows as keys, and for a ticker that occurs in several
    rows it holds the close of the last of them. *)
Theorem last_row_wins (rows rest : list (string * float)) (s : string) (close : float) :
  (is_Some (get_last_day_lookup rows !! s) <-> s ∈ rows.*1) /\
  (s ∉ rest.*1 ->
   get_last_day_lookup (rows ++ (s, close) :: rest) !! s = Some close).
Proof.
  unfold get_last_day_lookup. split.
  - rewrite foldl_insert_keys, lookup_empty. split.
    + intros [[x Hx] | H]; [discriminate | exact H].
    + auto.
  - intros Hs. rewrite foldl_app. simpl.
    rewrite foldl_insert_other by exact Hs. apply lookup_insert_eq.
Qed.

Lemma last_row_wins_witness :
  (is_Some (get_last_day_lookup [("NVDA"%string, 1%float)] !! "NVDA"%string)
     <-> "NVDA"%string ∈ [("NVDA"%string, 1%float)].*1) /\
  get_last_day_lookup ([("NVDA"%string, 1%float)] ++ ("NVDA"%string, 102.71%float)
                         :: [("ZZZZ"%string, 0%float)]) !! "NVDA"%string
    = Some 102.71%float.
Proof.
  destruct (last_row_wins [("NVDA"%string, 1%float)] [("ZZZZ"%string, 0%float)]
              "NVDA" 102.71%float) as [H1 H2].
  split; [exact H1 |]. apply H2.
  simpl. intros H. apply list_elem_of_singleton in H. discriminate.
Defined.

(** X14: a new scanner has an unlit signal for every ticker that occurs in
    the rows and no signal for any other ticker, and no instrument is
    mapped; so a quote handled before any mapping raises [KeyError] with
    its instrument id, whatever the table and the threshold are. *)
Theorem scanner_starts_armed
    (thr : option num) (rows : list (string * float)) (s : string)
    (hd : RecordHeader) (lv : BidAskPair) :
  is_signal_lit (init thr rows) !! s =
    (if decide (s ∈ rows.*1) then Some false else None) /\
  symbol_directory (init thr rows) = ∅ /\
  scan (MBP1Msg hd lv) (boot (init thr rows)) =
    (Raise (KeyError_int (instrument_id hd)), boot (init thr rows)).
Proof.
  split; [| split].
  - simpl. rewrite lookup_fmap.
    pose proof (proj1 (foldl_insert_keys rows ∅ s)) as H1.
    pose proof (proj2 (foldl_insert_keys rows ∅ s)) as H2.
    unfold get_last_day_lookup.
    destruct (decide (s ∈ rows.*1)) as [Hin | Hout].
    + destruct (H2 (or_intror Hin)) as [x ->]. reflexivity.
    + destruct (foldl _ ∅ rows !! s) as [x |] eqn:Hx; [| reflexivity].
      destruct (H1 (ex_intro _ x eq_refl)) as [[y Hy] | Hin].
      * rewrite lookup_empty in Hy. discriminate.
      * contradiction.
  - reflexivity.
  - apply scan_quote_unmapped. simpl. apply lookup_empty.
Qed.

(** X15: the threshold of a session is the one the constructor chose; no
    event changes it. *)
Theorem threshold_is_fixed
    (halt : bool) (thr : option num) (rows : list (string * float)) (events : list Event) :
  pct_threshold (self (session halt thr rows events)) =
    or_else thr (PyFloat PCT_MOVE_THRESHOLD).
Proof.
  unfold session.
  apply (feed_invariant (fun w =>
           pct_threshold (self w) = or_else thr (PyFloat PCT_MOVE_THRESHOLD))).
  - intros event w Hw. destruct (scan_keeps_config event w) as [-> _]. exact Hw.
  - reflexivity.
Qed.

(** X16: [scan] prints only in answer to a quote, with both sides present,
    of a mapped instrument whose ticker has an unlit signal; it prints one
    line, which carries the time of that quote and the ticker the
    instrument resolves to, and the call returns.  Symbol mappings and other
    records never print. *)
Theorem alert_needs_a_quote (event : Event) (w : world) :
  stdout (scan event w).2 <> stdout w ->
  exists hd lv s a,
    event = MBP1Msg hd lv /\
    symbol_directory (self w) !! instrument_id hd = Some s /\
    null_side lv = false /\
    is_signal_lit (self w) !! s = Some false /\
    alert_symbol a = s /\ alert_ts a = ts_event hd /\
    mid_price (bid_px lv) (ask_px lv) = Return (alert_mid a) /\
    scan event w = (Return tt, alerted w a).
Proof.
  pose proof (scan_path event w) as Hp.
  destruct (scan event w) as [o w']. simpl in *.
  inversion Hp; subst; simpl; try congruence.
  intros _. eexists hd, lv, s, _. repeat split; try eassumption; reflexivity.
Qed.

Lemma alert_needs_a_quote_witness :
  exists hd lv s a,
    quote = MBP1Msg hd lv /\
    symbol_directory (self nvda_mapped) !! instrument_id hd = Some s /\
    null_side lv = false /\
    is_signal_lit (self nvda_mapped) !! s = Some false /\
    alert_symbol a = s /\ alert_ts a = ts_event hd /\
    mid_price (bid_px lv) (ask_px lv) = Return (alert_mid a) /\
    scan quote nvda_mapped = (Return tt, alerted nvda_mapped a).
Proof.
  apply (alert_needs_a_quote quote nvda_mapped).
  vm_compute. discriminate.
Defined.

(** ** One alert per ticker *)

Lemma feed_survives_app (halt : bool) (pre rest : list Event) (w : world) :
  survives halt pre w ->
  feed halt (pre ++ rest) w = feed halt rest (feed halt pre w).
Proof.
  revert w. induction pre as [| event pre IH]; intros w Hs; [reflexivity |].
  rewrite <- app_comm_cons, !feed_step. simpl in Hs.
  destruct (scan event w) as [[u | e] w']; simpl.
  - apply IH, Hs.
  - destruct Hs as [-> Hs]. apply IH, Hs.
Qed.

Lemma feed_lit_stays_lit (halt : bool) (events : list Event) (w : world) (s : string) :
  is_signal_lit (self w) !! s = Some true ->
  is_signal_lit (self (feed halt events w)) !! s = Some true.
Proof.
  apply (feed_invariant (fun w' => is_signal_lit (self w') !! s = Some true)).
  intros event w'. apply lit_stays_lit.
Qed.

Lemma unlit_not_printed (w : world) (s : string) :
  lit_as_printed w -> is_signal_lit (self w) !! s = Some false -> alerts_for s w = [].
Proof.
  intros Hw Hs. unfold alerts_for.
  destruct (filter (fun a => alert_symbol a = s) (stdout w)) as [| a l] eqn:Hf;
    [reflexivity |].
  assert (Ha : a ∈ filter (fun a => alert_symbol a = s) (stdout w))
    by (rewrite Hf; left).
  apply list_elem_of_filter in Ha as [Hsym Hin].
  assert (Hlit : is_signal_lit (self w) !! s = Some true).
  { apply Hw. apply list_elem_of_fmap. eauto. }
  congruence.
Qed.

Lemma lit_printed (w : world) (s : string) :
  lit_as_printed w -> is_signal_lit (self w) !! s = Some true ->
  (1 <= length (alerts_for s w))%nat.
Proof.
  intros Hw Hs. apply Hw, list_elem_of_fmap in Hs as (a & -> & Ha).
  assert (Hin : a ∈ alerts_for (alert_symbol a) w)
    by (apply list_elem_of_filter; auto).
  destruct (alerts_for (alert_symbol a) w); [apply elem_of_nil in Hin as [] | simpl; lia].
Qed.

(** C4 (as the code has it): whatever the events of a session are, at most
    one alert is printed for a ticker, and a signal that is lit stays lit.
    In a session of a new scanner, with any mappings and any quotes of
    other tickers in between, once a quote is handled whose relative move
    for the ticker is above the threshold and whose time is below [2 ^ 63]
    nanoseconds, exactly one alert has been printed for that ticker, and
    it stays exactly one whatever follows. *)
Theorem one_alert_per_symbol (s : string) :
  (forall (halt : bool) (events : list Event) (sc : Scanner),
     (length (alerts_for s (feed halt events (boot sc))) <= 1)%nat) /\
  (forall (event : Event) (w : world),
     is_signal_lit (self w) !! s = Some true ->
     is_signal_lit (self (scan event w).2) !! s = Some true) /\
  (forall (halt : bool) (thr : option num) (rows : list (string * float))
          (pre : list Event) (q : Event) (post : list Event),
     survives halt pre (boot (init thr rows)) ->
     exceeds (self (session halt thr rows pre)) s q ->
     dated q ->
     length (alerts_for s (session halt thr rows (pre ++ q :: post))) = 1%nat /\
     is_signal_lit (self (session halt thr rows (pre ++ q :: post))) !! s = Some true).
Proof.
  split; [| split].
  - intros halt events sc. apply (feed_alerts_bound halt events (boot sc) s).
  - intros event w. apply lit_stays_lit.
  - intros halt thr rows pre q post Hsurv Hex Hdated.
    pose proof (feed_alerts_bound halt (pre ++ q :: post) (boot (init thr rows)) s) as Hle.
    simpl in Hle. unfold session in *.
    rewrite (feed_survives_app halt pre (q :: post) _ Hsurv) in *.
    set (w := feed halt pre (boot (init thr rows))) in *.
    assert (Hprinted : lit_as_printed w).
    { apply feed_invariant; [apply lit_as_printed_scan | apply lit_as_printed_init]. }
    assert (Htracked : tracked (self w)).
    { apply (feed_invariant (fun w' => tracked (self w')));
        [apply tracked_scan | apply tracked_init]. }
    destruct Hex as (hd & lv & mid & last & r & -> & Hd & Hn & Hm & Hl & Hr & Hg).
    assert (Hsig : is_Some (is_signal_lit (self w) !! s)).
    { apply elem_of_dom. rewrite Htracked. apply elem_of_dom. eauto. }
    destruct Hsig as [[] Hs].
    + pose proof (lit_printed w s Hprinted Hs) as Hge.
      rewrite (feed_lit_no_alert halt _ w s Hs) in *.
      split; [lia | apply feed_lit_stays_lit, Hs].
    + simpl in Hdated.
      pose proof (scan_quote_armed w hd lv s mid last r Hd Hn Hm Hl Hr Hg Hs Hdated) as Hscan.
      rewrite feed_step, Hscan in *. simpl in *.
      set (a := {| alert_ts := ts_event hd; alert_symbol := s; alert_abs_r := r;
                   alert_mid := mid; alert_last := last |}) in *.
      assert (Hlit : is_signal_lit (self (alerted w a)) !! s = Some true)
        by (simpl; apply lookup_insert_eq).
      split; [| apply feed_lit_stays_lit, Hlit].
      rewrite (feed_lit_no_alert halt post (alerted w a) s Hlit).
      unfold alerts_for. simpl. rewrite filter_app.
      pose proof (unlit_not_printed w s Hprinted Hs) as Hnone.
      unfold alerts_for in Hnone. rewrite Hnone.
      rewrite (filter_cons_True _ a []) by reflexivity. reflexivity.
Qed.

Lemma one_alert_per_symbol_witness :
  (length (alerts_for "NVDA"
             (session true None two_rows
                ([mapping "NVDA"; mapping2 "AAPL"; quote2] ++ quote :: [quote2; quote])))
     = 1%nat /\
   is_signal_lit
     (self (session true None two_rows
              ([mapping "NVDA"; mapping2 "AAPL"; quote2] ++ quote :: [quote2; quote])))
     !! "NVDA"%string = Some true) /\
  (length (alerts_for "AAPL"
             (session false None two_rows
                ([late_quote; mapping "NVDA"; mapping2 "AAPL"; quote] ++ quote2 :: [quote])))
     = 1%nat /\
   is_signal_lit
     (self (session false None two_rows
              ([late_quote; mapping "NVDA"; mapping2 "AAPL"; quote] ++ quote2 :: [quote])))
     !! "AAPL"%string = Some true).
Proof.
  split.
  - apply (proj2 (proj2 (one_alert_per_symbol "NVDA")) true None two_rows
             [mapping "NVDA"; mapping2 "AAPL"; quote2] quote [quote2; quote]).
    + vm_compute. exact I.
    + exists header, book, 98.190000000000012%float, 102.71%float,
        0.044007399474247706%float.
      repeat split; reflexivity.
    + reflexivity.
  - apply (proj2 (proj2 (one_alert_per_symbol "AAPL")) false None two_rows
             [late_quote; mapping "NVDA"; mapping2 "AAPL"; quote] quote2 [quote]).
    + vm_compute. auto.
    + exists header2, book, 98.190000000000012%float, 90%float,
        0.091000000000000136%float.
      repeat split; reflexivity.
    + reflexivity.
Defined.

(** C4 as stated fails: quotes for NVDA whose relative move is above the
    threshold again and again, but which carry the null time, print no
    alert at all, whether the session ends at the exception or goes on. *)
Lemma undated_quotes_never_alert :
  Forall (exceeds (self nvda_mapped) "NVDA") [late_quote; late_quote; late_quote] /\
  is_signal_lit (self nvda_mapped) !! "NVDA"%string = Some false /\
  alerts_for "NVDA" (feed false [late_quote; late_quote; late_quote] nvda_mapped) = [] /\
  alerts_for "NVDA" (feed true [late_quote; late_quote; late_quote] nvda_mapped) = [].
Proof.
  split; [| repeat split; reflexivity].
  repeat constructor;
    (exists late_header, book, 98.190000000000012%float, 102.71%float,
       0.044007399474247706%float; repeat split; reflexivity).
Qed.
